(** * node_snapshotable.cc: snapshot building, internal-field codec, artifact emission

    A shallow embedding of [src/node_snapshotable.cc].  Calls into V8, libuv
    and the rest of node are collaborators: their answers are inputs of the
    model, their side effects are events of a trace.  Functions of the file
    itself are translated statement by statement. *)

From Stdlib Require Import ZArith Lia Ascii String.
From stdpp Require Import base tactics option list strings pretty functions.

Local Open Scope string_scope.
Local Open Scope Z_scope.
Local Open Scope list_scope.

(** ** Process termination, diagnostics, and the execution monad *)

(** The ways the code of this file ends the process. *)
Inductive FatalKind : Type :=
| AbortCalled                     (* a bare abort()                         *)
| CheckFailed (expr : string)     (* CHECK(expr), CHECK_EQ(a, b)            *)
| DCheckFailed (expr : string)    (* DCHECK(expr), debug builds             *)
| Unreachable                     (* UNREACHABLE()                          *)
| ToLocalCheckedEmpty.            (* MaybeLocal::ToLocalChecked() on empty  *)

(** Arguments of a printf-style diagnostic. *)
Inductive Arg : Type :=
| AInt (z : Z)
| APtr (address : nat)
| AStr (s : string).

(** Observable actions on collaborators, in program order. *)
Inductive Event : Type :=
| EvDebug (format : string) (args : list Arg)   (* per_process::Debug(MKSNAPSHOT, ...) *)
| EvPrintf (format : string) (args : list Arg)
| EvPrintCaughtException
| EvPrintAllBaseObjects
| EvPrintLibuvHandleInformation
| EvRegisterIsolate
| EvUnregisterIsolate
| EvInitializeInspector
| EvFreeEnvironment
| EvDispose.

(** A line of per_process::Debug output. *)
Definition is_debug_line (e : Event) : Prop := exists f a, e = EvDebug f a.

Inductive Result (A : Type) : Type :=
| Return (a : A)          (* the function returned [a]                      *)
| Fatal (f : FatalKind)   (* the process was terminated                     *)
| Undefined.              (* no behaviour defined by the language           *)
Arguments Return {A} a.
Arguments Fatal {A} f.
Arguments Undefined {A}.

(** What a run leaves behind: the diagnostics it printed, the memory it
    reached (at the return, or at the point the process died), and how it
    ended. *)
Record Outcome (S A : Type) : Type := mkOutcome {
  trace : list Event;
  final : S;
  result : Result A
}.
Arguments mkOutcome {S A} trace final result.
Arguments trace {S A} o.
Arguments final {S A} o.
Arguments result {S A} o.

Definition Run (S A : Type) : Type := S -> Outcome S A.

Definition ret {S A} (a : A) : Run S A :=
  fun s => mkOutcome [] s (Return a).

Definition bind {S A B} (m : Run S A) (k : A -> Run S B) : Run S B :=
  fun s =>
    match m s with
    | mkOutcome t s1 (Return a) =>
        match k a s1 with
        | mkOutcome t' s2 r => mkOutcome (t ++ t') s2 r
        end
    | mkOutcome t s1 (Fatal f) => mkOutcome t s1 (Fatal f)
    | mkOutcome t s1 Undefined => mkOutcome t s1 Undefined
    end.

Declare Scope run_scope.
Delimit Scope run_scope with run.
Notation "x <- c1 ;; c2" := (bind c1 (fun x => c2))
  (at level 100, c1 at next level, right associativity) : run_scope.
Notation "c1 ;; c2" := (bind c1 (fun _ => c2))
  (at level 100, right associativity) : run_scope.

Definition emit {S} (e : Event) : Run S unit :=
  fun s => mkOutcome [e] s (Return tt).
Definition fatal {S A} (f : FatalKind) : Run S A :=
  fun s => mkOutcome [] s (Fatal f).
Definition undefined {S A} : Run S A :=
  fun s => mkOutcome [] s Undefined.
Definition get {S} : Run S S :=
  fun s => mkOutcome [] s (Return s).
Definition modify {S} (f : S -> S) : Run S unit :=
  fun s => mkOutcome [] (f s) (Return tt).
Definition when {S} (c : bool) (m : Run S unit) : Run S unit :=
  if c then m else ret tt.

(** CHECK(c): terminates the process when [c] is false. *)
Definition CHECK {S} (c : bool) (expr : string) : Run S unit :=
  if c then ret tt else fatal (CheckFailed expr).
(** UNREACHABLE(). *)
Definition UNREACHABLE {S A} : Run S A := fatal Unreachable.

Definition returned {S A} (o : Outcome S A) : Prop :=
  exists a, result o = Return a.
Definition aborted {S A} (o : Outcome S A) : Prop :=
  exists f, result o = Fatal f.
(** Two runs that end the same way in the same memory; their diagnostics may
    differ. *)
Definition same_effect {S A} (o1 o2 : Outcome S A) : Prop :=
  result o1 = result o2 /\ final o1 = final o2.

(** ** Integer conversions *)

(** static_cast<int>(x): the value of [x] modulo 2^32, read as a signed
    32-bit integer. *)
Definition static_cast_int (x : Z) : Z :=
  (x + 2 ^ 31) mod 2 ^ 32 - 2 ^ 31.
(** Conversion to size_t (64 bits, unsigned). *)
Definition to_size_t (x : Z) : Z := x mod 2 ^ 64.

(** ** Data model *)

(** v8::StartupData: a nullable pointer to a buffer and the byte count the
    producer declares for it.  [A] is what the consumer reads the buffer as
    (chars for the blob, an InternalFieldInfo for a slot payload). *)
Record StartupData (A : Type) : Type := mkStartupData {
  data : option A;
  raw_size : Z
}.
Arguments mkStartupData {A} data raw_size.
Arguments data {A} s.
Arguments raw_size {A} s.

(** The tag of a snapshotable kind (enum class EmbedderObjectType). *)
Definition EmbedderObjectType : Type := Z.

(** InternalFieldInfo: the header every serialized embedder object starts
    with, followed by the bytes of the kind's own state. *)
Module InternalFieldInfo.
Record t : Type := mk {
  type : EmbedderObjectType;
  length : Z;                     (* unsigned; the code converts it to int *)
  custom : list Z
}.

(** Modelled from the spec: InternalFieldInfo::Copy (node_snapshotable.h is
    not part of the sources) duplicates the chunk; the copy has the same
    contents. *)
Definition Copy (info : t) : t := info.
End InternalFieldInfo.

(** A JS object is known by its address; a context likewise. *)
Definition Holder : Type := nat.
Definition Context : Type := nat.
Definition FastStringKey : Type := string.

(** PropInfo (env.h): one entry of EnvSerializeInfo::bindings,
    written by [SerializeBindingData] as {key.c_str(), i, index}. *)
Module PropInfo.
Record t : Type := mk {
  name : string;
  id : Z;                         (* size_t: position in the enumeration *)
  index : Z                       (* size_t: index in the snapshot *)
}.
End PropInfo.

Section Snapshot.

(** v8::SnapshotCreator, and the index its AddData hands out. *)
Context {SnapshotCreator : Type}.
Variable AddData : SnapshotCreator -> Context -> Holder -> Z * SnapshotCreator.

(** per_process::enabled_debug_list.enabled(DebugCategory::MKSNAPSHOT). *)
Variable debug_mksnapshot : bool.

(** SnapshotableObject: a BaseObject that carries a type tag and the two
    virtual methods used here. *)
Record SnapshotableObject : Type := mkSnapshotableObject {
  type_ : EmbedderObjectType;
  Serialize : Z -> InternalFieldInfo.t;
  PrepareForSerialization : Context -> SnapshotCreator -> SnapshotCreator
}.

(** BaseObject: the native half of a JS object; [snapshotable] is its
    SnapshotableObject view when it has one. *)
Record BaseObject : Type := mkBaseObject {
  object : Holder;
  snapshotable : option SnapshotableObject
}.

Definition is_snapshotable (b : BaseObject) : bool :=
  match snapshotable b with Some _ => true | None => false end.

(** The void* kept in an internal field. *)
Inductive void_ptr : Type :=
| nullptr
| pointer (target : BaseObject).

(** The aligned-pointer internal fields of all objects, by (object, slot).
    Which slots an object has is V8's concern: here every pair has a field. *)
Definition InternalFields : Type := Holder * Z -> void_ptr.

(** DeserializeRequestCallback: rebuilds the native object of a slot. *)
Definition DeserializeRequestCallback : Type :=
  Context -> Holder -> Z -> InternalFieldInfo.t -> InternalFields -> InternalFields.

Record DeserializeRequest : Type := mkDeserializeRequest {
  cb : DeserializeRequestCallback;
  req_holder : Holder;
  req_index : Z;
  req_info : InternalFieldInfo.t
}.

(** One V(PropertyName, NativeTypeName) line of SERIALIZABLE_OBJECT_TYPES,
    with what the expansions of this file take from it:
    EmbedderObjectType::k_##PropertyName, NativeTypeName::type_name and
    NativeTypeName::Deserialize. *)
Record SerializableObjectType : Type := mkSerializableObjectType {
  PropertyName : string;
  NativeTypeName : string;
  k_ : EmbedderObjectType;
  type_name : FastStringKey;
  Deserialize : DeserializeRequestCallback
}.

(** The macro list (node_snapshotable.h); its lines are a parameter. *)
Variable SERIALIZABLE_OBJECT_TYPES : list SerializableObjectType.

(** The part of Environment this file touches. *)
Record Environment : Type := mkEnvironment {
  context : Context;
  deserialize_requests : list DeserializeRequest;
  binding_data : list (FastStringKey * BaseObject)
}.

Record Memory : Type := mkMemory {
  internal_fields : InternalFields;
  environment : Environment
}.

(** per_process::Debug(DebugCategory::MKSNAPSHOT, format, args...). *)
Definition Debug {S} (format : string) (args : list Arg) : Run S unit :=
  when debug_mksnapshot (emit (EvDebug format args)).

(** holder->SetAlignedPointerInInternalField(index, value). *)
Definition SetAlignedPointerInInternalField
    (holder : Holder) (index : Z) (value : void_ptr) : Run Memory unit :=
  modify (fun m =>
    mkMemory (<[(holder, index) := value]> (internal_fields m)) (environment m)).

(** holder->GetAlignedPointerFromInternalField(index). *)
Definition GetAlignedPointerFromInternalField
    (holder : Holder) (index : Z) : Run Memory void_ptr :=
  (m <- get ;; ret (internal_fields m (holder, index)))%run.

(** Modelled from the spec: Environment::EnqueueDeserializeRequest (env-inl.h
    is not part of the sources) appends the request to the ordered queue the
    restoring environment owns. *)
Definition EnqueueDeserializeRequest
    (cb : DeserializeRequestCallback) (holder : Holder) (index : Z)
    (info : InternalFieldInfo.t) : Run Memory unit :=
  modify (fun m =>
    let e := environment m in
    mkMemory (internal_fields m)
      (mkEnvironment (context e)
         (deserialize_requests e ++ [mkDeserializeRequest cb holder index info])
         (binding_data e))).

(** The switch over the tag that the V-expansions build: the case of the
    first line whose k_##PropertyName is the tag, else the default. *)
Definition switch_type (t : EmbedderObjectType) : option SerializableObjectType :=
  List.find (fun ty => Z.eqb (k_ ty) t) SERIALIZABLE_OBJECT_TYPES.

(** SnapshotableObject::GetTypeNameChars. *)
Definition GetTypeNameChars {S} (obj : SnapshotableObject) : Run S string :=
  match switch_type (type_ obj) with
  | Some ty => ret (type_name ty)
  | None => UNREACHABLE
  end.

(** IsSnapshotableType. *)
Definition IsSnapshotableType (key : FastStringKey) : bool :=
  existsb (fun ty => String.eqb key (type_name ty)) SERIALIZABLE_OBJECT_TYPES.

(** DeserializeNodeInternalFields(holder, index, payload, env); [*env] is the
    environment of the memory.  [data payload = Some info] says that [info]
    is the InternalFieldInfo that can be read at [payload.data]; as in the
    code, [raw_size] is only compared with 0. *)
Definition DeserializeNodeInternalFields
    (holder : Holder) (index : Z) (payload : StartupData InternalFieldInfo.t)
    : Run Memory unit :=
  (Debug "Deserialize internal field %d of %p, size=%d\n"
     [AInt (static_cast_int index); APtr holder;
      AInt (static_cast_int (raw_size payload))] ;;
   if Z.eqb (raw_size payload) 0 then
     SetAlignedPointerInInternalField holder index nullptr
   else
     match data payload with
     | None => undefined
     | Some info =>
         match switch_type (InternalFieldInfo.type info) with
         | Some ty =>
             Debug "Object %p is %s\n" [APtr holder; AStr (type_name ty)] ;;
             EnqueueDeserializeRequest
               (Deserialize ty) holder index (InternalFieldInfo.Copy info)
         | None => UNREACHABLE
         end
     end)%run.

(** The request [DeserializeNodeInternalFields] queues for a slot, if any. *)
Definition request_of
    (holder : Holder) (index : Z) (payload : StartupData InternalFieldInfo.t)
    : option DeserializeRequest :=
  if Z.eqb (raw_size payload) 0 then None
  else
    info ← data payload;
    ty ← switch_type (InternalFieldInfo.type info);
    Some (mkDeserializeRequest (Deserialize ty) holder index
            (InternalFieldInfo.Copy info)).

(** The deserializer of V8 hands every internal field it discovers to the
    callback, one after the other. *)
Fixpoint DeserializeInternalFields
    (slots : list (Holder * Z * StartupData InternalFieldInfo.t))
    : Run Memory unit :=
  match slots with
  | [] => ret tt
  | (holder, index, payload) :: slots' =>
      (DeserializeNodeInternalFields holder index payload ;;
       DeserializeInternalFields slots')%run
  end.

(** sizeof(InternalFieldInfo) (node_snapshotable.h). *)
Variable sizeof_InternalFieldInfo : Z.

(** A payload within whose bytes the callback stays: it reads nothing of an
    empty one, and of any other the InternalFieldInfo at its start, which
    the [raw_size] bytes have to cover.  Of a non-empty payload that is
    shorter, lines 279-290 read beyond the end. *)
Definition in_bounds (payload : StartupData InternalFieldInfo.t) : Prop :=
  raw_size payload = 0 \/ sizeof_InternalFieldInfo <= raw_size payload.

(** A slot the callback can decode: empty, or of a registered kind. *)
Definition decodable (slot : Holder * Z * StartupData InternalFieldInfo.t) : Prop :=
  raw_size slot.2 = 0
  \/ is_Some (request_of slot.1.1 slot.1.2 slot.2).

Definition requests_of
    (slots : list (Holder * Z * StartupData InternalFieldInfo.t))
    : list DeserializeRequest :=
  omap (fun slot => request_of slot.1.1 slot.1.2 slot.2)
    slots.

(** ** Serializing the internal fields of the context *)

(** BaseObject::kSlot (base_object.h). *)
Variable kSlot : Z.
(** Whether DCHECKs are compiled in (debug builds). *)
Variable DEBUG : bool.

(** DCHECK(c). *)
Definition DCHECK {S} (c : bool) (expr : string) : Run S unit :=
  if DEBUG then (if c then ret tt else fatal (DCheckFailed expr)) else ret tt.

(** SerializeNodeContextInternalFields(holder, index, env).  The static_cast
    of [ptr] to SnapshotableObject* has a meaning only for an object that is
    one. *)
Definition SerializeNodeContextInternalFields
    (holder : Holder) (index : Z) : Run Memory (StartupData InternalFieldInfo.t) :=
  (Debug "Serialize internal field, index=%d, holder=%p\n"
     [AInt (static_cast_int index); APtr holder] ;;
   ptr <- GetAlignedPointerFromInternalField holder kSlot ;;
   match ptr with
   | nullptr => ret (mkStartupData None 0)
   | pointer base =>
       DCHECK (is_snapshotable base)
         "static_cast<BaseObject*>(ptr)->is_snapshotable()" ;;
       match snapshotable base with
       | None => undefined
       | Some obj =>
           chars <- GetTypeNameChars obj ;;
           Debug "Object %p is %s, " [APtr holder; AStr chars] ;;
           let info := Serialize obj index in
           Debug "payload size=%d\n"
             [AInt (static_cast_int (InternalFieldInfo.length info))] ;;
           ret (mkStartupData (Some info)
                  (static_cast_int (InternalFieldInfo.length info)))
       end
   end)%run.

(** The empty marker: StartupData{nullptr, 0}. *)
Definition empty_marker : StartupData InternalFieldInfo.t := mkStartupData None 0.

(** ** Serializing the bindings *)

(** What EnvSerializeInfo holds besides the bindings. *)
Context {EnvSerializeInfoRest : Type}.

Record EnvSerializeInfo : Type := mkEnvSerializeInfo {
  bindings : list PropInfo.t;
  rest : EnvSerializeInfoRest
}.

(** What the lambda of SerializeBindingData captures by reference. *)
Record Captured : Type := mkCaptured {
  cap_i : Z;                      (* size_t i *)
  cap_creator : SnapshotCreator;
  cap_info : EnvSerializeInfo
}.

(** The body of the lambda. *)
Definition SerializeBindingData_iterator
    (env : Environment) (key : FastStringKey) (binding : BaseObject)
    : Run Captured unit :=
  (c <- get ;;
   Debug "Serialize binding %i, %p, type=%s\n"
     [AInt (static_cast_int (cap_i c)); APtr (object binding); AStr key] ;;
   (if IsSnapshotableType key then
      let (index, creator) :=
        AddData (cap_creator c) (context env) (object binding) in
      Debug "Serialized with index=%d\n" [AInt (static_cast_int index)] ;;
      modify (fun c => mkCaptured (cap_i c) creator
        (mkEnvSerializeInfo
           (bindings (cap_info c) ++ [PropInfo.mk key (cap_i c) index])
           (rest (cap_info c)))) ;;
      match snapshotable binding with
      | None => undefined
      | Some ptr =>
          modify (fun c => mkCaptured (cap_i c)
            (PrepareForSerialization ptr (context env) (cap_creator c))
            (cap_info c))
      end
    else UNREACHABLE) ;;
   modify (fun c =>
     mkCaptured (to_size_t (cap_i c + 1)) (cap_creator c) (cap_info c)))%run.

(** Modelled from the spec: Environment::ForEachBindingData (env-inl.h is not
    part of the sources) calls the iterator on every binding of the
    environment, in enumeration order. *)
Fixpoint ForEachBindingData {S}
    (data : list (FastStringKey * BaseObject))
    (iterator : FastStringKey -> BaseObject -> Run S unit) : Run S unit :=
  match data with
  | [] => ret tt
  | (key, binding) :: data' =>
      (iterator key binding ;; ForEachBindingData data' iterator)%run
  end.

(** SerializeBindingData(env, creator, info); the outcome holds [*creator]
    and [*info] as the pass leaves them. *)
Definition SerializeBindingData
    (env : Environment) (creator : SnapshotCreator) (info : EnvSerializeInfo)
    : Outcome Captured unit :=
  ForEachBindingData (binding_data env) (SerializeBindingData_iterator env)
    (mkCaptured 0 creator info).

(** A binding the pass gets through: its key names a registered kind and the
    object is a SnapshotableObject. *)
Definition serializable_binding (kb : FastStringKey * BaseObject)
    : Prop :=
  IsSnapshotableType kb.1 = true
  /\ is_Some (snapshotable kb.2).

(** ** Emitting the artifact *)

Definition nl : string := String "010"%char "".
Definition quote : string := String "034"%char "".

(** Joins lines, each ended by a newline. *)
Definition text (lines : list string) : string :=
  foldr (fun l s => l +:+ nl +:+ s) "" lines.

(** WriteVector: [size] elements of [vec], each followed by a comma, the last
    one by a newline.  Reading beyond the end of [vec] has no defined
    result. *)
Definition WriteVector {T} (to_string : T -> string) (vec : list T) (size : Z)
    : option string :=
  foldr
    (fun i ss =>
       x ← vec !! i;
       s ← ss;
       Some (to_string x
             +:+ (if Z.eqb (Z.of_nat i) (to_size_t (size - 1)) then nl else ",")
             +:+ s))
    (Some "") (seq 0 (Z.to_nat size)).

(** operator<< of EnvSerializeInfo (env.cc). *)
Variable print_EnvSerializeInfo : EnvSerializeInfo -> string.

Record SnapshotData : Type := mkSnapshotData {
  blob : StartupData (list Z);
  isolate_data_indices : list Z;  (* std::vector<size_t> *)
  env_info : EnvSerializeInfo
}.

Definition FormatBlob_head : string :=
  text ["#include <cstddef>";
        "#include " +:+ quote +:+ "env.h" +:+ quote;
        "#include " +:+ quote +:+ "node_main_instance.h" +:+ quote;
        "#include " +:+ quote +:+ "v8.h" +:+ quote;
        "";
        "// This file is generated by tools/snapshot. Do not edit.";
        "";
        "namespace node {";
        "";
        "static const char blob_data[] = {"].

Definition FormatBlob_size : string :=
  text ["};"; ""] +:+ "static const int blob_size = ".

Definition FormatBlob_indices : string :=
  text [";";
        "";
        "SnapshotData snapshot_data {";
        "  // -- blob begins --";
        "  { blob_data, blob_size },";
        "  // -- blob ends --";
        "  // -- isolate_data_indices begins --";
        "  {"].

Definition FormatBlob_env_info : string :=
  text ["},";
        "  // -- isolate_data_indices ends --";
        "  // -- env_info begins --"].

Definition FormatBlob_tail : string :=
  text ["";
        "  // -- env_info ends --";
        "};";
        "";
        "const SnapshotData* NodeMainInstance::GetEmbeddedSnapshotData() {";
        "  return &snapshot_data;";
        "}";
        "}  // namespace node"].

(** The buffer a data pointer gives access to; none behind a null pointer. *)
Definition buffer {T} (p : option (list T)) : list T := default [] p.

(** FormatBlob(data): what the stream holds at the end. *)
Definition FormatBlob (data_ : SnapshotData) : option string :=
  blob_data ← WriteVector (pretty : Z -> string)
                 (buffer (data (blob data_)))
                 (to_size_t (raw_size (blob data_)));
  indices ← WriteVector (pretty : Z -> string)
                 (isolate_data_indices data_)
                 (Z.of_nat (List.length (isolate_data_indices data_)));
  Some (FormatBlob_head +:+ blob_data
        +:+ FormatBlob_size +:+ pretty (raw_size (blob data_))
        +:+ FormatBlob_indices +:+ indices
        +:+ FormatBlob_env_info +:+ print_EnvSerializeInfo (env_info data_)
        +:+ FormatBlob_tail).

(** The literal form of a sequence, as the artifact is to show it: every
    element in order, separated by commas, the last one followed by a
    newline; nothing for the empty sequence. *)
Fixpoint comma_separated {T} (to_string : T -> string) (l : list T) : string :=
  match l with
  | [] => ""
  | x :: l' =>
      match l' with
      | [] => to_string x +:+ nl
      | _ :: _ => to_string x +:+ "," +:+ comma_separated to_string l'
      end
  end.

(** The characters std::to_string writes for an integer. *)
Definition number_char (c : ascii) : bool :=
  match c with
  | "0" | "1" | "2" | "3" | "4" | "5" | "6" | "7" | "8" | "9" | "-" => true
  | _ => false
  end%char.

Fixpoint number_string (s : string) : bool :=
  match s with
  | EmptyString => true
  | String c s' => number_char c && number_string s'
  end.

(** What follows an element in [comma_separated]. *)
Definition separator {T} (l' : list T) : ascii :=
  match l' with
  | [] => "010"
  | _ :: _ => ","
  end%char.

(** The bytes of the blob: the first [raw_size] chars of its buffer. *)
Definition blob_bytes (data_ : SnapshotData) : list Z :=
  take (Z.to_nat (raw_size (blob data_))) (buffer (data (blob data_))).

(** A SnapshotData the emitter can read: [raw_size] is an int that does not
    exceed the buffer, and the size of the index vector is a size_t. *)
Definition SnapshotData_readable (data_ : SnapshotData) : Prop :=
  0 <= raw_size (blob data_) < 2 ^ 31
  /\ raw_size (blob data_) <= Z.of_nat (List.length (buffer (data (blob data_))))
  /\ Z.of_nat (List.length (isolate_data_indices data_)) < 2 ^ 64.

(** The artifact, spelled out. *)
Definition artifact (data_ : SnapshotData) : string :=
  FormatBlob_head +:+ comma_separated (pretty : Z -> string) (blob_bytes data_)
  +:+ FormatBlob_size +:+ pretty (Z.of_nat (List.length (blob_bytes data_)))
  +:+ FormatBlob_indices
  +:+ comma_separated (pretty : Z -> string) (isolate_data_indices data_)
  +:+ FormatBlob_env_info +:+ print_EnvSerializeInfo (env_info data_)
  +:+ FormatBlob_tail.

(** ** Building the snapshot *)

(** NodeMainInstance::kNodeContextIndex (node_main_instance.h). *)
Variable kNodeContextIndex : Z.
(** v8::StartupData::CanBeRehashed. *)
Variable CanBeRehashed : StartupData (list Z) -> bool.
(** The HAVE_INSPECTOR build flag. *)
Variable HAVE_INSPECTOR : bool.

(** What the collaborators answer during one build: V8 (contexts, scripts,
    the snapshot creator), the bootstrap scripts, the event loop and the
    command line.  A [_caught] field is what TryCatch::HasCaught() reports
    after the call; an [_empty] field says that the MaybeLocal it returned
    is empty. *)
Record Host : Type := mkHost {
  build_snapshot : bool;          (* per_process::cli_options->build_snapshot *)
  isolate_data_Serialize : list Z;
  NewContext_caught : bool;
  RunBootstrapping_caught : bool;
  RunBootstrapping_empty : bool;
  LoadEnvironment_caught : bool;
  LoadEnvironment_empty : bool;
  SpinEventLoop : option Z;       (* Maybe<int> *)
  SpinEventLoop_caught : bool;
  env_address : nat;
  env_Serialize : EnvSerializeInfo;
  AddContext : Z;                 (* size_t *)
  CreateBlob : StartupData (list Z);
  req_wrap_queue_IsEmpty : bool;  (* after CreateBlob *)
  handle_wrap_queue_IsEmpty : bool
}.

(** MaybeLocal::ToLocalChecked. *)
Definition ToLocalChecked {S} (empty : bool) : Run S unit :=
  if empty then fatal ToLocalCheckedEmpty else ret tt.

(** Maybe<int>::FromMaybe. *)
Definition FromMaybe (m : option Z) (default_value : Z) : Z :=
  match m with Some v => v | None => default_value end.

(** SnapshotBuilder::Generate(SnapshotData* out, args, exec_args), first
    part: from the allocation of the isolate to the blob and the check that
    it can be rehashed.  The state is [*out]. *)
Definition SnapshotBuilder_Generate_blob (host : Host) : Run SnapshotData unit :=
  (emit EvRegisterIsolate ;;
   modify (fun out =>
     mkSnapshotData (blob out) (isolate_data_Serialize host) (env_info out)) ;;
   (* Run the per-context scripts *)
   when (NewContext_caught host)
     (emit EvPrintCaughtException ;; fatal AbortCalled) ;;
   (* Run scripts in lib/internal/bootstrap/ *)
   when (RunBootstrapping_caught host) (emit EvPrintCaughtException) ;;
   ToLocalChecked (RunBootstrapping_empty host) ;;
   when (build_snapshot host)
     (when HAVE_INSPECTOR (emit EvInitializeInspector) ;;
      when (LoadEnvironment_caught host) (emit EvPrintCaughtException) ;;
      ToLocalChecked (LoadEnvironment_empty host) ;;
      let exit_code := FromMaybe (SpinEventLoop host) 1 in
      CHECK (Z.eqb exit_code 0) "exit_code == 0" ;;
      when (LoadEnvironment_caught host || SpinEventLoop_caught host)
        (emit EvPrintCaughtException ;; fatal AbortCalled)) ;;
   when debug_mksnapshot
     (emit EvPrintAllBaseObjects ;;
      emit (EvPrintf "Environment = %p\n" [APtr (env_address host)])) ;;
   (* Serialize the native states *)
   modify (fun out =>
     mkSnapshotData (blob out) (isolate_data_indices out) (env_Serialize host)) ;;
   (* Serialize the context *)
   let index := AddContext host in
   CHECK (Z.eqb index kNodeContextIndex)
     "index == NodeMainInstance::kNodeContextIndex" ;;
   (* Must be out of HandleScope *)
   modify (fun out =>
     mkSnapshotData (CreateBlob host) (isolate_data_indices out) (env_info out)) ;;
   (* We must be able to rehash the blob when we restore it *)
   out <- get ;;
   CHECK (CanBeRehashed (blob out)) "out->blob.CanBeRehashed()")%run.

(** Second part: no handle may be left open in the environment once the blob
    is created; then the environment and the instance are torn down. *)
Definition SnapshotBuilder_Generate_handles (host : Host) : Run SnapshotData unit :=
  (when (negb (req_wrap_queue_IsEmpty host)
         || negb (handle_wrap_queue_IsEmpty host)
         || debug_mksnapshot)
     (emit EvPrintLibuvHandleInformation) ;;
   CHECK (req_wrap_queue_IsEmpty host) "env->req_wrap_queue()->IsEmpty()" ;;
   CHECK (handle_wrap_queue_IsEmpty host) "env->handle_wrap_queue()->IsEmpty()" ;;
   emit EvFreeEnvironment ;;
   emit EvDispose ;;
   emit EvUnregisterIsolate)%run.

(** SnapshotBuilder::Generate(SnapshotData* out, args, exec_args). *)
Definition SnapshotBuilder_Generate (host : Host) : Run SnapshotData unit :=
  (SnapshotBuilder_Generate_blob host ;;
   SnapshotBuilder_Generate_handles host)%run.

(** The CHECK that fails when a queue is not empty: the first of the two. *)
Definition handles_check_failed (host : Host) : FatalKind :=
  if req_wrap_queue_IsEmpty host
  then CheckFailed "env->handle_wrap_queue()->IsEmpty()"
  else CheckFailed "env->req_wrap_queue()->IsEmpty()".

(** A failure of the scripts the build runs: the per-context scripts threw,
    the bootstrap scripts gave no result, or, when an entry point is run,
    it gave no result or left an exception behind. *)
Definition bootstrap_failed (host : Host) : Prop :=
  NewContext_caught host = true
  \/ RunBootstrapping_empty host = true
  \/ (build_snapshot host = true
      /\ (LoadEnvironment_empty host = true
          \/ LoadEnvironment_caught host = true
          \/ SpinEventLoop_caught host = true)).

(** std::string SnapshotBuilder::Generate(args, exec_args): the artifact.
    [data_] is the local SnapshotData before the call fills it in. *)
Definition SnapshotBuilder_Generate_string (host : Host) (data_ : SnapshotData)
    : Outcome SnapshotData string :=
  (SnapshotBuilder_Generate host ;;
   data_ <- get ;;
   match FormatBlob data_ with
   | Some result => ret result
   | None => undefined
   end)%run data_.

(** What the builder leaves in [*out] when it returns. *)
Definition built (host : Host) : SnapshotData :=
  mkSnapshotData (CreateBlob host) (isolate_data_Serialize host) (env_Serialize host).

(** The answers with which a build gets past every abort() and CHECK. *)
Definition build_passes (host : Host) : Prop :=
  NewContext_caught host = false
  /\ RunBootstrapping_empty host = false
  /\ (build_snapshot host = true ->
      LoadEnvironment_empty host = false
      /\ FromMaybe (SpinEventLoop host) 1 = 0
      /\ LoadEnvironment_caught host = false
      /\ SpinEventLoop_caught host = false)
  /\ AddContext host = kNodeContextIndex
  /\ CanBeRehashed (CreateBlob host) = true
  /\ req_wrap_queue_IsEmpty host = true
  /\ handle_wrap_queue_IsEmpty host = true.

(** The events of the teardown at the end of Generate. *)
Definition teardown_event (e : Event) : Prop :=
  e = EvFreeEnvironment \/ e = EvDispose \/ e = EvUnregisterIsolate.

(** [host] with other answers of the entry point (LoadEnvironment and the
    event loop). *)
Definition with_entry_point (host : Host)
    (load_caught load_empty : bool) (loop : option Z) (loop_caught : bool) : Host :=
  mkHost (build_snapshot host) (isolate_data_Serialize host)
    (NewContext_caught host) (RunBootstrapping_caught host)
    (RunBootstrapping_empty host)
    load_caught load_empty loop loop_caught
    (env_address host) (env_Serialize host) (AddContext host) (CreateBlob host)
    (req_wrap_queue_IsEmpty host) (handle_wrap_queue_IsEmpty host).

End Snapshot.

(** ** Instances used by the examples *)

(** A snapshot creator that hands out consecutive indices. *)
Definition ex_AddData (creator : nat) (_ : Context) (_ : Holder) : Z * nat :=
  (Z.of_nat creator, S creator).

Definition ex_binding_object (tag : EmbedderObjectType) (address : Holder)
    : @BaseObject nat :=
  mkBaseObject address
    (Some (mkSnapshotableObject tag
             (fun _ => InternalFieldInfo.mk tag 16 [])
             (fun _ creator => creator))).

(** A reconstruction function: puts a fresh object of the kind in the slot. *)
Definition ex_Deserialize (tag : EmbedderObjectType)
    : @DeserializeRequestCallback nat :=
  fun _ holder index _ fields =>
    <[(holder, index) := pointer (ex_binding_object tag holder)]> fields.

(** Three kinds, tagged 1, 2 and 3. *)
Definition ex_types : list (@SerializableObjectType nat) :=
  [mkSerializableObjectType "fs_binding_data" "fs::BindingData" 1
     "node::fs::BindingData" (ex_Deserialize 1);
   mkSerializableObjectType "v8_binding_data" "v8_utils::BindingData" 2
     "node::v8::BindingData" (ex_Deserialize 2);
   mkSerializableObjectType "blob_binding_data" "BlobBindingData" 3
     "node::BlobBindingData" (ex_Deserialize 3)].

Definition ex_fields : @InternalFields nat :=
  fun _ => pointer (ex_binding_object 1 100%nat).

Definition ex_memory : @Memory nat :=
  mkMemory ex_fields (mkEnvironment 5%nat [] []).

(** An object of kind 2 whose serialized form declares a length of 2^31. *)
Definition ex_big_object : @BaseObject nat :=
  mkBaseObject 9%nat
    (Some (mkSnapshotableObject 2
             (fun _ => InternalFieldInfo.mk 2 (2 ^ 31) [])
             (fun _ creator => creator))).

(** The internal fields of five holders: 7 has no native object, 8 has one
    of a kind tagged 0, which is not registered, 9 has [ex_big_object], 10
    has one of kind 1, and 11 has a BaseObject that is not snapshotable. *)
Definition ex_holders : @InternalFields nat :=
  fun slot =>
    match slot.1 with
    | 8%nat => pointer (ex_binding_object 0 8%nat)
    | 9%nat => pointer ex_big_object
    | 10%nat => pointer (ex_binding_object 1 10%nat)
    | 11%nat => pointer (mkBaseObject 11%nat None)
    | _ => nullptr
    end.

Definition ex_serialize_memory : @Memory nat :=
  mkMemory ex_holders (mkEnvironment 5%nat [] []).

(** An environment with three bindings, enumerated blob, v8, fs. *)
Definition ex_env : @Environment nat :=
  mkEnvironment 5%nat []
    [("node::BlobBindingData", ex_binding_object 3 30%nat);
     ("node::v8::BindingData", ex_binding_object 2 20%nat);
     ("node::fs::BindingData", ex_binding_object 1 10%nat)].

(** The same with a binding in the middle whose key names no registered kind. *)
Definition ex_env_unregistered : @Environment nat :=
  mkEnvironment 5%nat []
    [("node::BlobBindingData", ex_binding_object 3 30%nat);
     ("node::os::BindingData", ex_binding_object 4 40%nat);
     ("node::fs::BindingData", ex_binding_object 1 10%nat)].

Definition ex_info : @EnvSerializeInfo unit := mkEnvSerializeInfo [] tt.

Definition ex_print (info : @EnvSerializeInfo unit) : string :=
  "{ " +:+ pretty (Z.of_nat (List.length (bindings info))) +:+ " bindings }".

(** A blob of three bytes, and the same bytes at the start of a larger
    buffer. *)
Definition ex_blob : StartupData (list Z) := mkStartupData (Some [1; -2; 127]) 3.
Definition ex_blob_larger : StartupData (list Z) :=
  mkStartupData (Some [1; -2; 127; 99]) 3.

Definition ex_data : @SnapshotData unit := mkSnapshotData ex_blob [0; 1; 2] ex_info.
Definition ex_data_larger : @SnapshotData unit :=
  mkSnapshotData ex_blob_larger [0; 1; 2] ex_info.

(** A rehash check for the examples: the first byte of the blob is 1. *)
Definition ex_CanBeRehashed (b : StartupData (list Z)) : bool :=
  match data b with
  | Some (1 :: _) => true
  | _ => false
  end.

(** A build without entry point in which every collaborator answers as
    given. *)
Definition ex_host (bootstrap_fails : bool) (index : Z)
    (created : StartupData (list Z)) (req_empty handle_empty : bool)
    : @Host unit :=
  mkHost false [0; 1; 2] false bootstrap_fails bootstrap_fails
    false false None false 4096%nat ex_info index created req_empty handle_empty.

Definition ex_out : @SnapshotData unit :=
  mkSnapshotData (mkStartupData None 0) [] ex_info.

(** A build that runs an entry point, whose event loop ends with [loop];
    every other collaborator answers well. *)
Definition ex_host_main (loop : option Z) : @Host unit :=
  mkHost true [0; 1; 2] false false false
    false false loop false 4096%nat ex_info 0 ex_blob true true.

(** ** Properties *)

Lemma bind_Return {S A B} (m : Run S A) (k : A -> Run S B) s a :
  result (m s) = Return a ->
  bind m k s =
  mkOutcome (trace (m s) ++ trace (k a (final (m s))))
    (final (k a (final (m s)))) (result (k a (final (m s)))).
Proof.
  unfold bind. destruct (m s) as [t s1 r]. cbn. intros ->.
  destruct (k _ s1); reflexivity.
Qed.

Lemma bind_Fatal {S A B} (m : Run S A) (k : A -> Run S B) s f :
  result (m s) = Fatal f ->
  bind m k s = mkOutcome (trace (m s)) (final (m s)) (Fatal f).
Proof. unfold bind. destruct (m s) as [t s1 r]. cbn. intros ->. reflexivity. Qed.

Lemma bind_Undefined {S A B} (m : Run S A) (k : A -> Run S B) s :
  result (m s) = Undefined ->
  bind m k s = mkOutcome (trace (m s)) (final (m s)) Undefined.
Proof. unfold bind. destruct (m s) as [t s1 r]. cbn. intros ->. reflexivity. Qed.

Section Properties.

Context {SnapshotCreator : Type}.
Variable debug_mksnapshot : bool.
Variable SERIALIZABLE_OBJECT_TYPES : list (@SerializableObjectType SnapshotCreator).

Local Abbreviation Deserialize_fields :=
  (DeserializeNodeInternalFields debug_mksnapshot SERIALIZABLE_OBJECT_TYPES).
Local Abbreviation Deserialize_slots :=
  (DeserializeInternalFields debug_mksnapshot SERIALIZABLE_OBJECT_TYPES).
Local Abbreviation decodable_slot := (decodable SERIALIZABLE_OBJECT_TYPES).
Local Abbreviation queued := (requests_of SERIALIZABLE_OBJECT_TYPES).

Ltac run :=
  unfold bind, Debug, when, emit, ret, modify, get, fatal, undefined,
    UNREACHABLE, CHECK; simpl.

(** *** Decoding an empty payload *)

Lemma Deserialize_fields_empty holder index payload (m : Memory) :
  raw_size payload = 0 ->
  Deserialize_fields holder index payload m =
  mkOutcome
    (if debug_mksnapshot
     then [EvDebug "Deserialize internal field %d of %p, size=%d\n"
             [AInt (static_cast_int index); APtr holder; AInt 0]]
     else [])
    (mkMemory (<[(holder, index) := nullptr]> (internal_fields m)) (environment m))
    (Return tt).
Proof.
  intros Hsize. unfold DeserializeNodeInternalFields, SetAlignedPointerInInternalField.
  rewrite Hsize. run. destruct debug_mksnapshot; reflexivity.
Qed.

(** C1: a payload of length 0 makes DeserializeNodeInternalFields store the
    null pointer in the slot and return; the queue of the environment is left
    as it was, the only event is the diagnostic line, and the outcome is the
    same whatever the registered kinds and their Deserialize functions are. *)
Theorem C1_empty_payload_sets_null holder index payload (m : Memory) :
  raw_size payload = 0 ->
  let o := Deserialize_fields holder index payload m in
  result o = Return tt
  /\ internal_fields (final o) (holder, index) = nullptr
  /\ internal_fields (final o) = <[(holder, index) := nullptr]> (internal_fields m)
  /\ environment (final o) = environment m
  /\ Forall is_debug_line (trace o)
  /\ forall types',
       DeserializeNodeInternalFields debug_mksnapshot types' holder index payload m = o.
Proof.
  intros Hsize o. subst o. rewrite !Deserialize_fields_empty by exact Hsize.
  simpl. repeat split.
  - apply fn_lookup_insert.
  - destruct debug_mksnapshot; repeat constructor. eexists _, _. reflexivity.
  - intros types'.
    unfold DeserializeNodeInternalFields, SetAlignedPointerInInternalField.
    rewrite Hsize. run. destruct debug_mksnapshot; reflexivity.
Qed.

(** *** Serializing an internal field *)

Variable kSlot : Z.
Variable DEBUG : bool.

Local Abbreviation Serialize_field :=
  (SerializeNodeContextInternalFields debug_mksnapshot SERIALIZABLE_OBJECT_TYPES
     kSlot DEBUG).

Lemma static_cast_int_small x :
  - 2 ^ 31 <= x < 2 ^ 31 -> static_cast_int x = x.
Proof.
  intros Hx. unfold static_cast_int. rewrite Z.mod_small by lia. lia.
Qed.

Lemma Serialize_field_null holder index (m : Memory) :
  internal_fields m (holder, kSlot) = nullptr ->
  result (Serialize_field holder index m) = Return empty_marker.
Proof.
  intros Hptr. unfold SerializeNodeContextInternalFields,
    GetAlignedPointerFromInternalField. run.
  destruct debug_mksnapshot; cbn; rewrite Hptr; reflexivity.
Qed.

Lemma Serialize_field_object holder index (m : Memory) base obj ty :
  internal_fields m (holder, kSlot) = pointer base ->
  snapshotable base = Some obj ->
  switch_type SERIALIZABLE_OBJECT_TYPES (type_ obj) = Some ty ->
  result (Serialize_field holder index m)
  = Return (mkStartupData (Some (Serialize obj index))
              (static_cast_int (InternalFieldInfo.length (Serialize obj index)))).
Proof.
  intros Hptr Hobj Hty. unfold SerializeNodeContextInternalFields,
    GetAlignedPointerFromInternalField, DCHECK, GetTypeNameChars, is_snapshotable.
  run. destruct debug_mksnapshot; cbn; rewrite Hptr, Hobj; cbn;
    destruct DEBUG; cbn; rewrite Hty; reflexivity.
Qed.

Lemma Serialize_field_unregistered holder index (m : Memory) base obj :
  internal_fields m (holder, kSlot) = pointer base ->
  snapshotable base = Some obj ->
  switch_type SERIALIZABLE_OBJECT_TYPES (type_ obj) = None ->
  result (Serialize_field holder index m) = Fatal Unreachable.
Proof.
  intros Hptr Hobj Hty. unfold SerializeNodeContextInternalFields,
    GetAlignedPointerFromInternalField, DCHECK, GetTypeNameChars, is_snapshotable,
    UNREACHABLE.
  run. destruct debug_mksnapshot; cbn; rewrite Hptr, Hobj; cbn;
    destruct DEBUG; cbn; rewrite Hty; reflexivity.
Qed.

Lemma Serialize_field_not_snapshotable holder index (m : Memory) base :
  internal_fields m (holder, kSlot) = pointer base ->
  snapshotable base = None ->
  result (Serialize_field holder index m)
  = if DEBUG
    then Fatal (DCheckFailed "static_cast<BaseObject*>(ptr)->is_snapshotable()")
    else Undefined.
Proof.
  intros Hptr Hobj. unfold SerializeNodeContextInternalFields,
    GetAlignedPointerFromInternalField, DCHECK, is_snapshotable.
  run. destruct debug_mksnapshot; cbn; rewrite Hptr, Hobj; cbn;
    destruct DEBUG; reflexivity.
Qed.

Lemma Serialize_field_reads_only holder index (m : Memory) :
  final (Serialize_field holder index m) = m.
Proof.
  unfold SerializeNodeContextInternalFields,
    GetAlignedPointerFromInternalField, DCHECK, GetTypeNameChars, is_snapshotable,
    UNREACHABLE.
  run. destruct debug_mksnapshot; cbn;
    (destruct (internal_fields m (holder, kSlot)) as [| base]; cbn; [reflexivity |]);
    destruct DEBUG; cbn; (destruct (snapshotable base) as [obj |]; cbn; [| reflexivity]);
    destruct (switch_type _ _); reflexivity.
Qed.

(** C9 (amended): SerializeNodeContextInternalFields returns the empty marker
    exactly when the pointer in the holder's BaseObject::kSlot field is null,
    and it changes nothing.  For a snapshotable object of a registered kind it
    returns the InternalFieldInfo the object serializes to, with [raw_size]
    the [length] field converted to int: the [length] itself whenever that is
    at most INT_MAX.  For a snapshotable object whose kind is not registered
    it ends in the UNREACHABLE() of GetTypeNameChars; for an object that is
    not snapshotable the DCHECK fails where DCHECKs are compiled in, and the
    cast has no defined result where they are not. *)
Theorem C9_serialize_internal_field holder index (m : Memory) :
  let o := Serialize_field holder index m in
  final o = m
  /\ (result o = Return empty_marker <-> internal_fields m (holder, kSlot) = nullptr)
  /\ (forall base obj ty,
        internal_fields m (holder, kSlot) = pointer base ->
        snapshotable base = Some obj ->
        switch_type SERIALIZABLE_OBJECT_TYPES (type_ obj) = Some ty ->
        let info := Serialize obj index in
        result o = Return (mkStartupData (Some info)
                             (static_cast_int (InternalFieldInfo.length info)))
        /\ (0 <= InternalFieldInfo.length info < 2 ^ 31 ->
            result o = Return (mkStartupData (Some info)
                                 (InternalFieldInfo.length info))))
  /\ (forall base obj,
        internal_fields m (holder, kSlot) = pointer base ->
        snapshotable base = Some obj ->
        switch_type SERIALIZABLE_OBJECT_TYPES (type_ obj) = None ->
        result o = Fatal Unreachable)
  /\ (forall base,
        internal_fields m (holder, kSlot) = pointer base ->
        snapshotable base = None ->
        result o
        = if DEBUG
          then Fatal (DCheckFailed "static_cast<BaseObject*>(ptr)->is_snapshotable()")
          else Undefined).
Proof.
  intros o. subst o. split; [apply Serialize_field_reads_only |].
  split; [| split; [| split]].
  - split; [| apply Serialize_field_null].
    destruct (internal_fields m (holder, kSlot)) as [| base] eqn:Hptr; [reflexivity |].
    destruct (snapshotable base) as [obj |] eqn:Hobj.
    + destruct (switch_type SERIALIZABLE_OBJECT_TYPES (type_ obj)) as [ty |] eqn:Hty.
      * rewrite (Serialize_field_object _ _ _ _ _ _ Hptr Hobj Hty). discriminate.
      * rewrite (Serialize_field_unregistered _ _ _ _ _ Hptr Hobj Hty). discriminate.
    + rewrite (Serialize_field_not_snapshotable _ _ _ _ Hptr Hobj).
      destruct DEBUG; discriminate.
  - intros base obj ty Hptr Hobj Hty info.
    rewrite (Serialize_field_object _ _ _ _ _ _ Hptr Hobj Hty). fold info.
    split; [reflexivity |]. intros Hlen.
    rewrite static_cast_int_small by lia. reflexivity.
  - intros base obj Hptr Hobj Hty.
    exact (Serialize_field_unregistered _ _ _ _ _ Hptr Hobj Hty).
  - intros base Hptr Hobj.
    exact (Serialize_field_not_snapshotable _ _ _ _ Hptr Hobj).
Qed.

(** *** An empty payload stands for no object *)

(** C2 (amended): a payload of length 0 is not told apart from the absence of
    an object.  Whatever its data pointer, decoding it has the outcome of
    decoding the empty marker {nullptr, 0}, and the slot ends up holding the
    null pointer: the state for which SerializeNodeContextInternalFields, read
    at BaseObject::kSlot, returns the empty marker again. *)
Theorem C2_empty_payload_is_no_object holder index payload (m : Memory) :
  raw_size payload = 0 ->
  Deserialize_fields holder index payload m
  = Deserialize_fields holder index empty_marker m
  /\ internal_fields (final (Deserialize_fields holder index payload m))
       (holder, index) = nullptr
  /\ forall index',
       result (Serialize_field holder index'
                 (final (Deserialize_fields holder kSlot payload m)))
       = Return empty_marker.
Proof.
  intros Hsize. rewrite !Deserialize_fields_empty by (exact Hsize || reflexivity).
  split; [reflexivity |]. split; [apply fn_lookup_insert |].
  intros index'. apply Serialize_field_null. cbn [final internal_fields].
  apply fn_lookup_insert.
Qed.

(** *** Decoding a payload of a registered kind *)

Lemma Deserialize_fields_registered holder index payload info ty (m : Memory) :
  raw_size payload <> 0 ->
  data payload = Some info ->
  switch_type SERIALIZABLE_OBJECT_TYPES (InternalFieldInfo.type info) = Some ty ->
  Deserialize_fields holder index payload m =
  mkOutcome
    (if debug_mksnapshot
     then [EvDebug "Deserialize internal field %d of %p, size=%d\n"
             [AInt (static_cast_int index); APtr holder;
              AInt (static_cast_int (raw_size payload))];
           EvDebug "Object %p is %s\n" [APtr holder; AStr (type_name ty)]]
     else [])
    (mkMemory (internal_fields m)
       (mkEnvironment (context (environment m))
          (deserialize_requests (environment m)
             ++ [mkDeserializeRequest (Deserialize ty) holder index info])
          (binding_data (environment m))))
    (Return tt).
Proof.
  intros Hsize Hdata Hty.
  unfold DeserializeNodeInternalFields, EnqueueDeserializeRequest.
  apply Z.eqb_neq in Hsize. rewrite Hsize, Hdata, Hty. run.
  destruct debug_mksnapshot; reflexivity.
Qed.

Lemma Deserialize_fields_decodable holder index payload (m : Memory) :
  decodable_slot (holder, index, payload) ->
  let o := Deserialize_fields holder index payload m in
  result o = Return tt
  /\ deserialize_requests (environment (final o))
     = deserialize_requests (environment m)
       ++ queued [(holder, index, payload)].
Proof.
  unfold decodable, requests_of, request_of. simpl.
  destruct (Z.eqb_spec (raw_size payload) 0) as [Hz | Hnz].
  - intros _. rewrite Deserialize_fields_empty by exact Hz. simpl.
    split; [reflexivity | symmetry; apply app_nil_r].
  - intros [Hz | [req Hreq]]; [contradiction |].
    destruct (data payload) as [info |] eqn:Hdata; [| discriminate].
    simpl in Hreq |- *.
    destruct (switch_type _ _) as [ty |] eqn:Hty; [| discriminate].
    rewrite (Deserialize_fields_registered _ _ _ _ _ _ Hnz Hdata Hty).
    simpl. split; reflexivity.
Qed.

Lemma DeserializeInternalFields_queue slots : forall m : Memory,
  Forall decodable_slot slots ->
  let o := Deserialize_slots slots m in
  result o = Return tt
  /\ deserialize_requests (environment (final o))
     = deserialize_requests (environment m) ++ queued slots.
Proof.
  induction slots as [| [[holder index] payload] slots IH]; intros m Hall.
  - simpl. split; [reflexivity | symmetry; apply app_nil_r].
  - inversion Hall as [| ? ? Hslot Hrest]; subst.
    destruct (Deserialize_fields_decodable holder index payload m Hslot)
      as [Hr Hq].
    destruct (IH (final (Deserialize_fields holder index payload m)) Hrest)
      as [Hr' Hq'].
    cbn [DeserializeInternalFields]. rewrite (bind_Return _ _ _ _ Hr).
    cbn [result final]. split; [exact Hr' |].
    rewrite Hq', Hq. rewrite <- app_assoc. f_equal.
    unfold requests_of. cbn [omap list_omap].
    destruct (request_of _ _ _ _); reflexivity.
Qed.

(** C4: for a non-empty payload whose tag is that of a registered kind,
    DeserializeNodeInternalFields returns having left every internal field as
    it was (the Deserialize function of the kind has not run) and having
    appended one request, made of that function, the holder, the slot index
    and the copied payload, at the end of the queue of the environment.  The
    slots handed over afterwards queue up behind it, in the order they are
    discovered. *)
Theorem C4_registered_payload_is_queued holder index payload info ty (m : Memory) :
  raw_size payload <> 0 ->
  data payload = Some info ->
  switch_type SERIALIZABLE_OBJECT_TYPES (InternalFieldInfo.type info) = Some ty ->
  let o := Deserialize_fields holder index payload m in
  let request := mkDeserializeRequest (Deserialize ty) holder index info in
  result o = Return tt
  /\ internal_fields (final o) = internal_fields m
  /\ deserialize_requests (environment (final o))
     = deserialize_requests (environment m) ++ [request]
  /\ Forall is_debug_line (trace o)
  /\ forall slots, Forall decodable_slot slots ->
       let o' := Deserialize_slots slots (final o) in
       result o' = Return tt
       /\ deserialize_requests (environment (final o'))
          = deserialize_requests (environment m) ++ request :: queued slots.
Proof.
  intros Hsize Hdata Hty o request. subst o.
  rewrite (Deserialize_fields_registered _ _ _ _ _ m Hsize Hdata Hty).
  cbn [result final trace].
  split; [reflexivity |]. split; [reflexivity |]. split; [reflexivity |].
  split.
  - destruct debug_mksnapshot; repeat constructor; eexists _, _; reflexivity.
  - intros slots Hslots.
    match goal with
    | |- context [DeserializeInternalFields _ _ _ ?m'] =>
        destruct (DeserializeInternalFields_queue slots m' Hslots) as [Hr Hq]
    end.
    split; [exact Hr |].
    rewrite Hq. cbn [environment deserialize_requests].
    rewrite <- app_assoc. reflexivity.
Qed.

(** *** The builder *)

Context {EnvSerializeInfoRest : Type}.
Variable print_EnvSerializeInfo : @EnvSerializeInfo EnvSerializeInfoRest -> string.
Variable kNodeContextIndex : Z.
Variable CanBeRehashed : StartupData (list Z) -> bool.
Variable HAVE_INSPECTOR : bool.

Local Abbreviation Generate_blob :=
  (SnapshotBuilder_Generate_blob (EnvSerializeInfoRest:=EnvSerializeInfoRest)
     debug_mksnapshot kNodeContextIndex CanBeRehashed HAVE_INSPECTOR).
Local Abbreviation Generate_handles :=
  (SnapshotBuilder_Generate_handles (EnvSerializeInfoRest:=EnvSerializeInfoRest)
     debug_mksnapshot).
Local Abbreviation Generate :=
  (SnapshotBuilder_Generate (EnvSerializeInfoRest:=EnvSerializeInfoRest)
     debug_mksnapshot kNodeContextIndex CanBeRehashed HAVE_INSPECTOR).
Local Abbreviation Generate_string :=
  (SnapshotBuilder_Generate_string debug_mksnapshot print_EnvSerializeInfo
     kNodeContextIndex CanBeRehashed HAVE_INSPECTOR).

Ltac fatal_case :=
  right; eexists; split; [reflexivity | discriminate].

(** Every way the first part can end: it returns with [*out] filled in and
    every check passed, or the process is terminated, never by an
    UNREACHABLE(). *)
Lemma Generate_blob_cases (host : Host) out :
  let o := Generate_blob host out in
  (result o = Return tt
   /\ final o = mkSnapshotData (CreateBlob host) (isolate_data_Serialize host)
                  (env_Serialize host)
   /\ ~ bootstrap_failed host
   /\ AddContext host = kNodeContextIndex
   /\ CanBeRehashed (CreateBlob host) = true)
  \/ (exists f, result o = Fatal f /\ f <> Unreachable).
Proof.
  unfold bootstrap_failed.
  destruct host as [bs ids ncc rbc rbe lec lee sel selc ea es ac cb rq hq].
  unfold SnapshotBuilder_Generate_blob, ToLocalChecked, CHECK. run.
  destruct ncc; cbn; [fatal_case |].
  destruct rbc; cbn; (destruct rbe; cbn; [fatal_case |]).
  all: destruct bs; cbn.
  all: try (destruct HAVE_INSPECTOR; cbn;
            (destruct lec; cbn; (destruct lee; cbn; [fatal_case |]))).
  all: try (destruct (Z.eqb (FromMaybe sel 1) 0); cbn; [| fatal_case]).
  all: try (destruct selc; cbn; [fatal_case |]).
  all: try fatal_case.
  all: destruct debug_mksnapshot; cbn.
  all: destruct (Z.eqb_spec ac kNodeContextIndex); cbn; [| fatal_case].
  all: destruct (CanBeRehashed cb) eqn:Hrehash; cbn; [| fatal_case].
  all: left; repeat split; try assumption.
  all: intros [H | [H | [Hbs [H | [H | H]]]]]; discriminate.
Qed.

(** A failure of the scripts terminates the build, in abort(), in
    ToLocalChecked() or in the CHECK on the exit code. *)
Lemma Generate_bootstrap_failed (host : Host) out :
  bootstrap_failed host ->
  exists f, result (Generate host out) = Fatal f /\ f <> Unreachable.
Proof.
  intros Hfailed. unfold SnapshotBuilder_Generate.
  destruct (Generate_blob_cases host out) as [(_ & _ & Hok & _) | (f & Hf & Hne)];
    [contradiction |].
  exists f. rewrite (bind_Fatal _ _ _ _ Hf). split; [reflexivity | exact Hne].
Qed.

Lemma Generate_handles_open (host : Host) out :
  req_wrap_queue_IsEmpty host = false \/ handle_wrap_queue_IsEmpty host = false ->
  Generate_handles host out =
  mkOutcome [EvPrintLibuvHandleInformation] out (Fatal (handles_check_failed host)).
Proof.
  unfold SnapshotBuilder_Generate_handles, handles_check_failed, CHECK. run.
  destruct (req_wrap_queue_IsEmpty host), (handle_wrap_queue_IsEmpty host);
    cbn; intros [H | H]; try discriminate; reflexivity.
Qed.

Lemma Generate_handles_closed (host : Host) out :
  req_wrap_queue_IsEmpty host = true ->
  handle_wrap_queue_IsEmpty host = true ->
  Generate_handles host out =
  mkOutcome
    ((if debug_mksnapshot then [EvPrintLibuvHandleInformation] else [])
     ++ [EvFreeEnvironment; EvDispose; EvUnregisterIsolate])
    out (Return tt).
Proof.
  unfold SnapshotBuilder_Generate_handles, CHECK. run.
  intros -> ->. destruct debug_mksnapshot; reflexivity.
Qed.

Lemma aborted_bind {S A B} (m : Run S A) (k : A -> Run S B) s :
  aborted (m s) -> aborted (bind m k s).
Proof.
  intros [f Hf]. exists f. rewrite (bind_Fatal _ _ _ _ Hf). reflexivity.
Qed.


(** A build whose first part is terminated is terminated, and so is the
    overload that formats the artifact. *)
Lemma Generate_blob_aborted (host : Host) out :
  aborted (Generate_blob host out) ->
  aborted (Generate host out) /\ aborted (Generate_string host out).
Proof.
  intros Hblob. assert (Hgen : aborted (Generate host out)).
  { unfold SnapshotBuilder_Generate. apply aborted_bind. exact Hblob. }
  split; [exact Hgen |].
  unfold SnapshotBuilder_Generate_string. apply aborted_bind. exact Hgen.
Qed.

(** What a returning build has gone through. *)
Lemma Generate_returned (host : Host) out :
  returned (Generate host out) ->
  final (Generate host out)
    = mkSnapshotData (CreateBlob host) (isolate_data_Serialize host)
        (env_Serialize host)
  /\ AddContext host = kNodeContextIndex
  /\ CanBeRehashed (blob (final (Generate host out))) = true
  /\ req_wrap_queue_IsEmpty host = true
  /\ handle_wrap_queue_IsEmpty host = true.
Proof.
  intros [a Ha]. revert Ha. unfold SnapshotBuilder_Generate.
  destruct (Generate_blob_cases host out)
    as [(Hr & Hfin & _ & Hidx & Hrehash) | (f & Hf & _)].
  - rewrite (bind_Return _ _ _ _ Hr). cbn [result final]. rewrite Hfin.
    destruct (req_wrap_queue_IsEmpty host) eqn:Hreq;
      [destruct (handle_wrap_queue_IsEmpty host) eqn:Hhandle |].
    + rewrite (Generate_handles_closed _ _ Hreq Hhandle). cbn. intros _.
      repeat split; assumption.
    + rewrite (Generate_handles_open host) by (right; exact Hhandle). discriminate.
    + rewrite (Generate_handles_open host) by (left; exact Hreq). discriminate.
  - rewrite (bind_Fatal _ _ _ _ Hf). discriminate.
Qed.



(** C7: a build that returns has left in [out->blob] a blob that can be
    rehashed; when the blob the creator made cannot be rehashed, Generate is
    terminated, and the overload that formats the artifact produces none. *)
Theorem C7_blob_must_rehash (host : Host) out :
  (returned (Generate host out) ->
   blob (final (Generate host out)) = CreateBlob host
   /\ CanBeRehashed (blob (final (Generate host out))) = true)
  /\ (CanBeRehashed (CreateBlob host) = false ->
      aborted (Generate host out) /\ aborted (Generate_string host out)).
Proof.
  split.
  - intros Hret. destruct (Generate_returned host out Hret) as (Hfin & _ & Hok & _).
    split; [rewrite Hfin; reflexivity | exact Hok].
  - intros Hrehash. apply Generate_blob_aborted.
    destruct (Generate_blob_cases host out)
      as [(_ & _ & _ & _ & Hok) | (f & Hf & _)]; [congruence |].
    exists f. exact Hf.
Qed.

(** C10: a build that returns has added the root context at index
    NodeMainInstance::kNodeContextIndex; when AddContext hands out any other
    index, Generate is terminated and no artifact is formatted. *)
Theorem C10_context_index_is_fixed (host : Host) out :
  (returned (Generate host out) -> AddContext host = kNodeContextIndex)
  /\ (AddContext host <> kNodeContextIndex ->
      aborted (Generate host out) /\ aborted (Generate_string host out)).
Proof.
  split.
  - intros Hret. destruct (Generate_returned host out Hret) as (_ & Hidx & _).
    exact Hidx.
  - intros Hindex. apply Generate_blob_aborted.
    destruct (Generate_blob_cases host out)
      as [(_ & _ & _ & Hok & _) | (f & Hf & _)]; [contradiction |].
    exists f. exact Hf.
Qed.

(** *** Unknown tags *)

Lemma switch_type_None (t : EmbedderObjectType) :
  Forall (fun ty => k_ ty <> t) SERIALIZABLE_OBJECT_TYPES ->
  switch_type SERIALIZABLE_OBJECT_TYPES t = None.
Proof.
  unfold switch_type. induction 1 as [| ty types Hne _ IH]; [reflexivity |].
  cbn. destruct (Z.eqb_spec (k_ ty) t); [contradiction | exact IH].
Qed.

Lemma switch_type_Some (t : EmbedderObjectType) ty :
  switch_type SERIALIZABLE_OBJECT_TYPES t = Some ty ->
  In ty SERIALIZABLE_OBJECT_TYPES /\ k_ ty = t.
Proof.
  unfold switch_type. intros H. apply List.find_some in H as [Hin Heq].
  split; [exact Hin | apply Z.eqb_eq; exact Heq].
Qed.

(** C3: for a non-empty payload whose tag is the tag of no registered kind,
    DeserializeNodeInternalFields ends in UNREACHABLE(): it does not return,
    the memory is as it was (no slot written, nothing queued), and only
    diagnostics were printed.  A failure of the bootstrap scripts ends the
    builder in another way (abort(), ToLocalChecked() or a failed CHECK),
    never in UNREACHABLE(). *)
Theorem C3_unknown_tag_is_fatal holder index payload info (m : Memory) :
  raw_size payload <> 0 ->
  data payload = Some info ->
  Forall (fun ty => k_ ty <> InternalFieldInfo.type info) SERIALIZABLE_OBJECT_TYPES ->
  let o := Deserialize_fields holder index payload m in
  result o = Fatal Unreachable
  /\ final o = m
  /\ Forall is_debug_line (trace o)
  /\ (forall (host : Host) out,
       bootstrap_failed host ->
       aborted (Generate host out)
       /\ result (Generate host out) <> result o).
Proof.
  intros Hsize Hdata Htag o.
  assert (Ho : o = mkOutcome
    (if debug_mksnapshot
     then [EvDebug "Deserialize internal field %d of %p, size=%d\n"
             [AInt (static_cast_int index); APtr holder;
              AInt (static_cast_int (raw_size payload))]]
     else []) m (Fatal Unreachable)).
  { subst o. unfold DeserializeNodeInternalFields.
    apply Z.eqb_neq in Hsize. rewrite Hsize, Hdata, (switch_type_None _ Htag). run.
    destruct debug_mksnapshot; reflexivity. }
  rewrite Ho. cbn [result final trace].
  split; [reflexivity |]. split; [reflexivity |]. split.
  - destruct debug_mksnapshot; repeat constructor; eexists _, _; reflexivity.
  - intros host out Hfailed.
    destruct (Generate_bootstrap_failed host out Hfailed) as (f & Hf & Hne).
    split; [exists f; exact Hf | rewrite Hf; congruence].
Qed.

(** *** Serializing the bindings *)

Variable AddData : SnapshotCreator -> Context -> Holder -> Z * SnapshotCreator.

Local Abbreviation iterator :=
  (SerializeBindingData_iterator (EnvSerializeInfoRest:=EnvSerializeInfoRest)
     AddData debug_mksnapshot SERIALIZABLE_OBJECT_TYPES).

(** One call of the lambda: at most one record is appended, and it carries
    the key and the value of [i] at the call; [i] is incremented when the
    call returns. *)
Lemma iterator_step (env : Environment) key binding (c : Captured) :
  let o := iterator env key binding c in
  exists recs,
    bindings (cap_info (final o)) = bindings (cap_info c) ++ recs
    /\ (forall r, In r recs ->
          recs = [r] /\ PropInfo.name r = key /\ PropInfo.id r = cap_i c)
    /\ (result o = Return tt ->
        cap_i (final o) = to_size_t (cap_i c + 1) /\ List.length recs = 1%nat)
    /\ (serializable_binding SERIALIZABLE_OBJECT_TYPES (key, binding) -> result o = Return tt).
Proof.
  unfold SerializeBindingData_iterator, serializable_binding, UNREACHABLE. run.
  destruct (IsSnapshotableType SERIALIZABLE_OBJECT_TYPES key) eqn:Hkey.
  - destruct (AddData (cap_creator c) (context env) (object binding))
      as [index creator] eqn:Hadd.
    exists [PropInfo.mk key (cap_i c) index].
    destruct debug_mksnapshot; cbn;
      destruct (snapshotable binding) as [ptr |] eqn:Hptr; cbn.
    all: split; [reflexivity |].
    all: split; [intros r [<- | []]; repeat split |].
    all: split; [intros H; try discriminate H; split; reflexivity |].
    all: intros [_ [x Hx]]; try discriminate Hx; reflexivity.
  - exists []. destruct debug_mksnapshot; cbn.
    all: split; [symmetry; apply app_nil_r |].
    all: split; [intros r [] |].
    all: split; [discriminate | intros [H _]; discriminate H].
Qed.


(** One call of the lambda returns exactly for a serializable binding; for a
    key that names no registered kind it ends in UNREACHABLE() with the
    captured variables as they were, and in no case does it touch the rest of
    [*info]. *)
Lemma iterator_outcome (env : Environment) key binding (c : Captured) :
  let o := iterator env key binding c in
  rest (cap_info (final o)) = rest (cap_info c)
  /\ (returned o <-> serializable_binding SERIALIZABLE_OBJECT_TYPES (key, binding))
  /\ (IsSnapshotableType SERIALIZABLE_OBJECT_TYPES key = false ->
      result o = Fatal Unreachable /\ final o = c)
  /\ (IsSnapshotableType SERIALIZABLE_OBJECT_TYPES key = true ->
      snapshotable binding = None ->
      result o = Undefined
      /\ cap_i (final o) = cap_i c
      /\ exists index,
           bindings (cap_info (final o))
           = bindings (cap_info c) ++ [PropInfo.mk key (cap_i c) index]).
Proof.
  unfold SerializeBindingData_iterator, serializable_binding, UNREACHABLE, returned.
  run. cbn [fst snd].
  destruct (IsSnapshotableType SERIALIZABLE_OBJECT_TYPES key) eqn:Hkey.
  - destruct (AddData (cap_creator c) (context env) (object binding))
      as [index creator] eqn:Hadd.
    destruct debug_mksnapshot; cbn;
      destruct (snapshotable binding) as [ptr |] eqn:Hptr; cbn.
    all: split; [reflexivity |].
    all: split;
      [split; [intros [a Ha];
               first [discriminate Ha
                     | split; [reflexivity | eexists; reflexivity]]
              | intros [_ [x Hx]];
                first [discriminate Hx | eexists; reflexivity]] |].
    all: split; [discriminate |].
    all: intros _ Hnone;
      first [discriminate Hnone
            | split; [reflexivity |]; split; [reflexivity |];
              exists index; reflexivity].
  - destruct debug_mksnapshot; cbn.
    all: split; [reflexivity |].
    all: split; [split; [intros [a Ha]; discriminate Ha
                        | intros [H _]; discriminate H] |].
    all: split; [intros _; split; [reflexivity | destruct c; reflexivity]
                | discriminate].
Qed.

(** The loop up to the first binding that is not serializable: it ends
    there, whatever comes after. *)
Lemma ForEachBindingData_first_failure (env : Environment) good key binding tail :
  Forall (serializable_binding SERIALIZABLE_OBJECT_TYPES) good ->
  ~ serializable_binding SERIALIZABLE_OBJECT_TYPES (key, binding) ->
  forall c : Captured,
  let o := ForEachBindingData (good ++ (key, binding) :: tail) (iterator env) c in
  result o = (if IsSnapshotableType SERIALIZABLE_OBJECT_TYPES key
              then Undefined else Fatal Unreachable)
  /\ (exists recs,
        bindings (cap_info (final o)) = bindings (cap_info c) ++ recs
        /\ List.length recs
           = (List.length good
              + if IsSnapshotableType SERIALIZABLE_OBJECT_TYPES key then 1 else 0)%nat)
  /\ o = ForEachBindingData (good ++ [(key, binding)]) (iterator env) c.
Proof.
  intros Hgood Hbad. induction Hgood as [| [k b] good Hkb _ IH]; intros c; cbv zeta.
  - cbn [app ForEachBindingData List.length Nat.add].
    destruct (iterator_outcome env key binding c) as (_ & _ & Hno & Hyes).
    destruct (IsSnapshotableType SERIALIZABLE_OBJECT_TYPES key) eqn:Hkey.
    + assert (Hnone : snapshotable binding = None).
      { destruct (snapshotable binding) as [ptr |] eqn:Hptr; [| reflexivity].
        exfalso. apply Hbad. unfold serializable_binding. cbn [fst snd].
        rewrite Hkey, Hptr. split; [reflexivity | eexists; reflexivity]. }
      destruct (Hyes eq_refl Hnone) as (Hr & _ & index & Hrecs).
      rewrite !(bind_Undefined _ _ _ Hr). cbn [result final].
      split; [reflexivity |]. split; [| reflexivity].
      eexists. split; [exact Hrecs | reflexivity].
    + destruct (Hno eq_refl) as [Hr Hfinal].
      rewrite !(bind_Fatal _ _ _ _ Hr). cbn [result final].
      split; [reflexivity |]. split; [| reflexivity].
      exists []. rewrite Hfinal, app_nil_r. split; reflexivity.
  - cbn [app ForEachBindingData List.length].
    destruct (iterator_step env k b c) as (recs1 & Happ1 & _ & Hret1 & Hret).
    specialize (Hret Hkb). destruct (Hret1 Hret) as [_ Hlen1].
    rewrite !(bind_Return _ _ _ _ Hret). cbn [result final].
    destruct (IH (final (iterator env k b c))) as (Hres & (recs & Happ & Hlen) & Heq).
    split; [exact Hres |]. split.
    + exists (recs1 ++ recs). split.
      * rewrite Happ, Happ1, <- app_assoc. reflexivity.
      * rewrite length_app, Hlen1, Hlen. reflexivity.
    + rewrite Heq. reflexivity.
Qed.


(** *** Emitting the artifact *)

Lemma comma_separated_cons {T} (f : T -> string) x l :
  comma_separated f (x :: l)
  = f x +:+ (match l with [] => nl | _ :: _ => "," end) +:+ comma_separated f l.
Proof.
  destruct l as [| y l]; [| reflexivity].
  cbn [comma_separated]. change (nl +:+ "") with nl. reflexivity.
Qed.

(** The loop of WriteVector from index [a] on, [n] elements to go. *)
Lemma WriteVector_loop {T} (f : T -> string) (vec : list T) (size : Z) n :
  forall a : nat,
  Z.of_nat (a + n) = size ->
  size <= 2 ^ 64 ->
  (a + n <= List.length vec)%nat ->
  foldr
    (fun i ss =>
       x ← vec !! i;
       s ← ss;
       Some (f x +:+ (if Z.eqb (Z.of_nat i) (to_size_t (size - 1)) then nl else ",")
             +:+ s))
    (Some "") (seq a n)
  = Some (comma_separated f (take n (drop a vec))).
Proof.
  induction n as [| n IH]; intros a Hsize Hmax Hlen; [reflexivity |].
  cbn [seq foldr].
  rewrite (IH (S a)) by lia.
  destruct (lookup_lt_is_Some_2 vec a ltac:(lia)) as [x Hx].
  rewrite Hx. cbn [mbind option_bind].
  rewrite (drop_S _ _ _ Hx). cbn [take]. rewrite comma_separated_cons.
  do 2 f_equal. unfold to_size_t. rewrite Z.mod_small by lia.
  destruct (Z.eqb_spec (Z.of_nat a) (size - 1)) as [Heq | Hne].
  - assert (n = 0%nat) as -> by lia. rewrite take_0. reflexivity.
  - destruct n as [| n]; [lia |].
    destruct (lookup_lt_is_Some_2 vec (S a) ltac:(lia)) as [y Hy].
    rewrite (drop_S _ _ _ Hy). reflexivity.
Qed.

Lemma WriteVector_take {T} (f : T -> string) (vec : list T) (size : Z) :
  0 <= size <= Z.of_nat (List.length vec) ->
  size <= 2 ^ 64 ->
  WriteVector f vec size = Some (comma_separated f (take (Z.to_nat size) vec)).
Proof.
  intros Hsize Hmax. unfold WriteVector.
  rewrite (WriteVector_loop f vec size (Z.to_nat size) 0) by lia.
  reflexivity.
Qed.

Lemma FormatBlob_artifact (data_ : SnapshotData) :
  SnapshotData_readable data_ ->
  FormatBlob print_EnvSerializeInfo data_
  = Some (artifact print_EnvSerializeInfo data_).
Proof.
  intros (Hint & Hbuf & Hidx). unfold FormatBlob, artifact, blob_bytes.
  unfold to_size_t. rewrite (Z.mod_small (raw_size (blob data_))) by lia.
  rewrite WriteVector_take by lia. cbn [mbind option_bind].
  rewrite WriteVector_take by lia. cbn [mbind option_bind].
  rewrite Nat2Z.id, firstn_all, length_take, Nat.min_l by lia.
  rewrite Z2Nat.id by lia. reflexivity.
Qed.

(** **** The bytes can be read back from the artifact *)

Lemma append_cons ch (a b : string) : String ch a +:+ b = String ch (a +:+ b).
Proof. reflexivity. Qed.

Lemma append_nil (b : string) : "" +:+ b = b.
Proof. reflexivity. Qed.

Lemma append_assoc (a b c : string) : (a +:+ b) +:+ c = a +:+ (b +:+ c).
Proof.
  induction a as [| ch a IH]; [reflexivity |].
  rewrite !append_cons, IH. reflexivity.
Qed.

Lemma number_string_app a b :
  number_string a = true -> number_string b = true ->
  number_string (a +:+ b) = true.
Proof.
  induction a as [| ch a IH]; [intros _ H; exact H |].
  rewrite append_cons. cbn [number_string].
  intros [Hch Ha]%andb_true_iff Hb. rewrite Hch, (IH Ha Hb). reflexivity.
Qed.

Lemma pretty_N_char_number x : number_char (pretty_N_char x) = true.
Proof. unfold pretty_N_char. repeat case_match; reflexivity. Qed.

Lemma pretty_N_go_number x : forall s,
  number_string s = true -> number_string (pretty_N_go x s) = true.
Proof.
  induction (N.lt_wf_0 x) as [x _ IH]. intros s Hs.
  destruct (N.eq_dec x 0%N) as [-> | Hpos].
  - rewrite pretty_N_go_0. exact Hs.
  - rewrite pretty_N_go_step by lia. apply IH.
    + apply N.div_lt; lia.
    + cbn [number_string]. rewrite pretty_N_char_number, Hs. reflexivity.
Qed.

Lemma pretty_N_number (x : N) : number_string (pretty x) = true.
Proof.
  unfold pretty, pretty_N. destruct (decide (x = 0%N)); [reflexivity |].
  apply pretty_N_go_number. reflexivity.
Qed.

Lemma pretty_Z_number (z : Z) : number_string (pretty z) = true.
Proof.
  destruct z as [| p | p]; unfold pretty, pretty_Z.
  - reflexivity.
  - apply pretty_N_number.
  - apply (number_string_app "-"); [reflexivity | apply pretty_N_number].
Qed.

(** A number is read up to the first character that is not part of one. *)
Lemma number_prefix_inj s1 : forall s2 c1 c2 r1 r2,
  number_string s1 = true -> number_string s2 = true ->
  number_char c1 = false -> number_char c2 = false ->
  s1 +:+ String c1 r1 = s2 +:+ String c2 r2 ->
  s1 = s2 /\ c1 = c2 /\ r1 = r2.
Proof.
  induction s1 as [| a1 s1 IH]; intros [| a2 s2] c1 c2 r1 r2 H1 H2 Hc1 Hc2 Heq;
    rewrite ?append_cons, ?append_nil in Heq; cbn [number_string] in *.
  - injection Heq as -> ->. repeat split.
  - injection Heq as -> _. apply andb_true_iff in H2 as [H2 _]. congruence.
  - injection Heq as -> _. apply andb_true_iff in H1 as [H1 _]. congruence.
  - injection Heq as -> Heq.
    apply andb_true_iff in H1 as [_ H1]. apply andb_true_iff in H2 as [_ H2].
    destruct (IH _ _ _ _ _ H1 H2 Hc1 Hc2 Heq) as (-> & -> & ->). repeat split.
Qed.

Lemma comma_separated_separator {T} (f : T -> string) x l :
  comma_separated f (x :: l) = f x +:+ String (separator l) (comma_separated f l).
Proof.
  rewrite comma_separated_cons. destruct l; reflexivity.
Qed.

Lemma separator_not_number {T} (l : list T) : number_char (separator l) = false.
Proof. destruct l; reflexivity. Qed.

(** A rendered list is read back, element by element, up to a character
    that is neither part of a number nor a separator. *)
Lemma comma_separated_inj (l1 : list Z) : forall (l2 : list Z) c r1 r2,
  number_char c = false ->
  (forall l : list Z, separator l <> c) ->
  comma_separated pretty l1 +:+ String c r1
    = comma_separated pretty l2 +:+ String c r2 ->
  l1 = l2 /\ r1 = r2.
Proof.
  induction l1 as [| x1 l1 IH]; intros [| x2 l2] c r1 r2 Hc Hsep Heq.
  - cbn [comma_separated] in Heq. rewrite !append_nil in Heq.
    injection Heq as ->. split; reflexivity.
  - exfalso. rewrite comma_separated_separator, append_assoc, append_cons in Heq.
    cbn [comma_separated] in Heq.
    destruct (number_prefix_inj "" _ _ _ _ _ eq_refl (pretty_Z_number x2) Hc
                (separator_not_number l2) Heq) as (_ & Hcs & _).
    exact (Hsep l2 (eq_sym Hcs)).
  - exfalso. rewrite comma_separated_separator, append_assoc, append_cons in Heq.
    cbn [comma_separated] in Heq.
    destruct (number_prefix_inj _ "" _ _ _ _ (pretty_Z_number x1) eq_refl
                (separator_not_number l1) Hc Heq) as (_ & Hcs & _).
    exact (Hsep l1 Hcs).
  - rewrite !comma_separated_separator, !append_assoc, !append_cons in Heq.
    destruct (number_prefix_inj _ _ _ _ _ _ (pretty_Z_number x1)
                (pretty_Z_number x2) (separator_not_number l1)
                (separator_not_number l2) Heq) as (Hx & _ & Hrest).
    apply (inj pretty) in Hx as ->.
    destruct (IH _ _ _ _ Hc Hsep Hrest) as [-> ->]. split; reflexivity.
Qed.

(** Two readable SnapshotData with the same artifact have the same blob
    bytes. *)
Lemma FormatBlob_faithful (data1 data2 : SnapshotData) :
  SnapshotData_readable data1 ->
  SnapshotData_readable data2 ->
  FormatBlob print_EnvSerializeInfo data1 = FormatBlob print_EnvSerializeInfo data2 ->
  blob_bytes data1 = blob_bytes data2.
Proof.
  intros Hr1 Hr2.
  rewrite (FormatBlob_artifact data1 Hr1), (FormatBlob_artifact data2 Hr2).
  intros Heq. apply (inj Some) in Heq. unfold artifact in Heq.
  apply (inj (String.append FormatBlob_head)) in Heq.
  refine (proj1 (comma_separated_inj _ _ "}"%char _ _ eq_refl _ Heq)).
  intros [| ? ?]; discriminate.
Qed.

(** C8: for SnapshotData the emitter can read, the artifact FormatBlob
    returns is a function of the blob bytes, the index list and the env_info
    alone: two values that agree on them give the same artifact.  The
    artifact shows every byte of the blob in order, as a comma separated
    list of decimals, and the size constant it declares is the number of
    bytes shown, which is the [raw_size] of the blob.  Nothing of the bytes is
    lost: a SnapshotData with the same artifact has the same blob bytes. *)
Theorem C8_FormatBlob_deterministic (data1 data2 : SnapshotData) :
  SnapshotData_readable data1 ->
  SnapshotData_readable data2 ->
  raw_size (blob data1) = raw_size (blob data2) ->
  blob_bytes data1 = blob_bytes data2 ->
  isolate_data_indices data1 = isolate_data_indices data2 ->
  env_info data1 = env_info data2 ->
  FormatBlob print_EnvSerializeInfo data1
    = FormatBlob print_EnvSerializeInfo data2
  /\ FormatBlob print_EnvSerializeInfo data1
     = Some (FormatBlob_head
             +:+ comma_separated (pretty : Z -> string) (blob_bytes data1)
             +:+ FormatBlob_size +:+ pretty (raw_size (blob data1))
             +:+ FormatBlob_indices
             +:+ comma_separated (pretty : Z -> string) (isolate_data_indices data1)
             +:+ FormatBlob_env_info +:+ print_EnvSerializeInfo (env_info data1)
             +:+ FormatBlob_tail)
  /\ Z.of_nat (List.length (blob_bytes data1)) = raw_size (blob data1)
  /\ (forall data3 : SnapshotData,
        SnapshotData_readable data3 ->
        FormatBlob print_EnvSerializeInfo data3
          = FormatBlob print_EnvSerializeInfo data1 ->
        blob_bytes data3 = blob_bytes data1).
Proof.
  intros Hr1 Hr2 Hsize Hbytes Hidx Henv.
  assert (Hlen : Z.of_nat (List.length (blob_bytes data1)) = raw_size (blob data1)).
  { destruct Hr1 as (Hint & Hbuf & _). unfold blob_bytes.
    rewrite length_take, Nat.min_l by lia. lia. }
  split; [| split; [| split]].
  - rewrite (FormatBlob_artifact data1 Hr1), (FormatBlob_artifact data2 Hr2).
    unfold artifact. rewrite <- Hbytes, <- Hidx, <- Henv. reflexivity.
  - rewrite (FormatBlob_artifact data1 Hr1). unfold artifact. rewrite Hlen.
    reflexivity.
  - exact Hlen.
  - intros data3 Hr3 Hsame. exact (FormatBlob_faithful data3 data1 Hr3 Hr1 Hsame).
Qed.

(** ** Further properties *)

(** *** WriteVector and FormatBlob at their bounds *)

Lemma WriteVector_loop_beyond {T} (f : T -> string) (vec : list T) (size : Z) n :
  forall a : nat,
  (a <= List.length vec < a + n)%nat ->
  foldr
    (fun i ss =>
       x ← vec !! i;
       s ← ss;
       Some (f x +:+ (if Z.eqb (Z.of_nat i) (to_size_t (size - 1)) then nl else ",")
             +:+ s))
    (Some "") (seq a n)
  = None.
Proof.
  induction n as [| n IH]; intros a Hlen; [lia |].
  cbn [seq foldr].
  destruct (vec !! a) as [x |] eqn:Hx; [| reflexivity].
  apply lookup_lt_Some in Hx.
  rewrite (IH (S a)) by lia. reflexivity.
Qed.

Lemma WriteVector_loop_within {T} (f : T -> string) (vec : list T) (size : Z) n :
  forall a : nat,
  (a + n <= List.length vec)%nat ->
  is_Some
    (foldr
       (fun i ss =>
          x ← vec !! i;
          s ← ss;
          Some (f x +:+ (if Z.eqb (Z.of_nat i) (to_size_t (size - 1)) then nl else ",")
                +:+ s))
       (Some "") (seq a n)).
Proof.
  induction n as [| n IH]; intros a Hlen; [eexists; reflexivity |].
  cbn [seq foldr].
  destruct (lookup_lt_is_Some_2 vec a ltac:(lia)) as [x Hx]. rewrite Hx.
  destruct (IH (S a) ltac:(lia)) as [s Hs]. rewrite Hs.
  eexists. reflexivity.
Qed.

Lemma WriteVector_bounds {T} (f : T -> string) (vec : list T) (size : Z) :
  0 <= size <= 2 ^ 64 ->
  WriteVector f vec size
  = if Z.leb size (Z.of_nat (List.length vec))
    then Some (comma_separated f (take (Z.to_nat size) vec))
    else None.
Proof.
  intros Hsize. destruct (Z.leb_spec size (Z.of_nat (List.length vec))) as [Hin | Hout].
  - apply WriteVector_take; lia.
  - unfold WriteVector. apply WriteVector_loop_beyond. lia.
Qed.

(** X1: WriteVector with a [size] that is a size_t either finds its [size]
    elements in the vector and renders exactly the first [size] of them,
    comma separated and closed by a newline (nothing at all for size 0), or
    the vector is shorter than [size] and it reads beyond its end. *)
Theorem X1_WriteVector_bounds {T} (f : T -> string) (vec : list T) (size : Z) :
  0 <= size <= 2 ^ 64 ->
  (size <= Z.of_nat (List.length vec) ->
   WriteVector f vec size = Some (comma_separated f (take (Z.to_nat size) vec)))
  /\ (Z.of_nat (List.length vec) < size -> WriteVector f vec size = None).
Proof.
  intros Hsize. rewrite (WriteVector_bounds f vec size Hsize).
  destruct (Z.leb_spec size (Z.of_nat (List.length vec))) as [Hin | Hout].
  - split; [reflexivity | lia].
  - split; [lia | reflexivity].
Qed.

Lemma comma_separated_pretty_inj (l1 l2 : list Z) :
  comma_separated pretty l1 = comma_separated pretty l2 -> l1 = l2.
Proof.
  intros Heq.
  refine (proj1 (comma_separated_inj l1 l2 "}"%char "" "" eq_refl _ _)).
  - intros [| ? ?]; discriminate.
  - rewrite Heq. reflexivity.
Qed.

(** X2: the elements WriteVector has rendered can be read back: two calls on
    vectors of integers that produce the same text have rendered the same
    elements. *)
Theorem X2_WriteVector_read_back (vec1 vec2 : list Z) (size1 size2 : Z) text_ :
  0 <= size1 <= 2 ^ 64 ->
  0 <= size2 <= 2 ^ 64 ->
  WriteVector pretty vec1 size1 = Some text_ ->
  WriteVector pretty vec2 size2 = Some text_ ->
  take (Z.to_nat size1) vec1 = take (Z.to_nat size2) vec2.
Proof.
  intros H1 H2. rewrite !WriteVector_bounds by assumption.
  destruct (Z.leb size1 _); [| discriminate].
  destruct (Z.leb size2 _); [| discriminate].
  intros [= <-] [= Heq]. apply comma_separated_pretty_inj. symmetry. exact Heq.
Qed.

Lemma FormatBlob_defined (data_ : SnapshotData) :
  is_Some (FormatBlob print_EnvSerializeInfo data_)
  <-> to_size_t (raw_size (blob data_))
      <= Z.of_nat (List.length (buffer (data (blob data_)))).
Proof.
  assert (Hrange : 0 <= to_size_t (raw_size (blob data_)) < 2 ^ 64)
    by (unfold to_size_t; apply Z.mod_pos_bound; lia).
  unfold FormatBlob.
  rewrite (WriteVector_bounds pretty (buffer (data (blob data_)))
             (to_size_t (raw_size (blob data_)))) by lia.
  destruct (Z.leb_spec (to_size_t (raw_size (blob data_)))
              (Z.of_nat (List.length (buffer (data (blob data_)))))) as [Hin | Hout].
  - split; [intros _; exact Hin | intros _].
    cbn [mbind option_bind]. unfold WriteVector.
    destruct (WriteVector_loop_within pretty (isolate_data_indices data_)
                (Z.of_nat (List.length (isolate_data_indices data_)))
                (Z.to_nat (Z.of_nat (List.length (isolate_data_indices data_)))) 0
                ltac:(lia)) as [s Hs].
    rewrite Hs. eexists. reflexivity.
  - split; [intros [s Hs]; discriminate Hs | lia].
Qed.

(** X3: FormatBlob produces an artifact exactly when the [raw_size] of the
    blob, converted to size_t, does not exceed the buffer behind its data
    pointer.  In particular a negative [raw_size] (an int, converted to a
    size_t above 2^63) and a null pointer with a [raw_size] other than 0 make
    it read beyond the blob; the vector of isolate data indices, written
    with its own size, never stands in the way. *)
Theorem X3_FormatBlob_defined (data_ : SnapshotData) :
  (is_Some (FormatBlob print_EnvSerializeInfo data_)
   <-> to_size_t (raw_size (blob data_))
       <= Z.of_nat (List.length (buffer (data (blob data_)))))
  /\ (- 2 ^ 31 <= raw_size (blob data_) < 0 ->
      Z.of_nat (List.length (buffer (data (blob data_)))) < 2 ^ 63 ->
      FormatBlob print_EnvSerializeInfo data_ = None)
  /\ (data (blob data_) = None ->
      raw_size (blob data_) mod 2 ^ 64 <> 0 ->
      FormatBlob print_EnvSerializeInfo data_ = None).
Proof.
  assert (Hiff := FormatBlob_defined data_).
  split; [exact Hiff |]. split.
  - intros Hneg Hlen.
    destruct (FormatBlob print_EnvSerializeInfo data_) as [s |] eqn:Hs; [| reflexivity].
    exfalso. assert (Hsome : is_Some (Some s)) by (eexists; reflexivity).
    apply Hiff in Hsome. unfold to_size_t in Hsome.
    rewrite <- (Z.mod_add _ 1) in Hsome by lia.
    rewrite Z.mod_small in Hsome by lia. lia.
  - intros Hnull Hnz.
    destruct (FormatBlob print_EnvSerializeInfo data_) as [s |] eqn:Hs; [| reflexivity].
    exfalso. assert (Hsome : is_Some (Some s)) by (eexists; reflexivity).
    apply Hiff in Hsome. rewrite Hnull in Hsome. cbn in Hsome.
    unfold to_size_t in Hsome.
    pose proof (Z.mod_pos_bound (raw_size (blob data_)) (2 ^ 64) ltac:(lia)). lia.
Qed.

Lemma length_append (a b : string) :
  String.length (a +:+ b) = (String.length a + String.length b)%nat.
Proof.
  induction a as [| ch a IH]; [reflexivity |].
  rewrite append_cons. cbn [String.length]. rewrite IH. reflexivity.
Qed.

Lemma append_inj_r (a b t : string) : a +:+ t = b +:+ t -> a = b.
Proof.
  revert b. induction a as [| ch a IH]; intros [| ch' b] Heq.
  - reflexivity.
  - apply (f_equal String.length) in Heq.
    rewrite append_nil, append_cons in Heq. cbn [String.length] in Heq.
    rewrite length_append in Heq. lia.
  - apply (f_equal String.length) in Heq.
    rewrite append_nil, append_cons in Heq. cbn [String.length] in Heq.
    rewrite length_append in Heq. lia.
  - rewrite !append_cons in Heq. injection Heq as -> Heq.
    rewrite (IH b Heq). reflexivity.
Qed.

(** X4: nothing FormatBlob is given is lost in the artifact: two readable
    SnapshotData with the same artifact have the same blob bytes, the same
    [raw_size], the same isolate data indices, and env_info that print
    alike. *)
Theorem X4_FormatBlob_injective (data1 data2 : SnapshotData) :
  SnapshotData_readable data1 ->
  SnapshotData_readable data2 ->
  FormatBlob print_EnvSerializeInfo data1 = FormatBlob print_EnvSerializeInfo data2 ->
  blob_bytes data1 = blob_bytes data2
  /\ raw_size (blob data1) = raw_size (blob data2)
  /\ isolate_data_indices data1 = isolate_data_indices data2
  /\ print_EnvSerializeInfo (env_info data1)
     = print_EnvSerializeInfo (env_info data2).
Proof.
  intros Hr1 Hr2 Hsame.
  assert (Hbytes := FormatBlob_faithful data1 data2 Hr1 Hr2 Hsame).
  assert (Hlen : forall d : @SnapshotData EnvSerializeInfoRest,
            SnapshotData_readable d ->
            Z.of_nat (List.length (blob_bytes d)) = raw_size (blob d)).
  { intros d (Hint & Hbuf & _). unfold blob_bytes.
    rewrite length_take, Nat.min_l by lia. lia. }
  split; [exact Hbytes |].
  split; [rewrite <- (Hlen data1 Hr1), <- (Hlen data2 Hr2), Hbytes; reflexivity |].
  rewrite (FormatBlob_artifact data1 Hr1), (FormatBlob_artifact data2 Hr2) in Hsame.
  apply (inj Some) in Hsame. unfold artifact in Hsame. rewrite Hbytes in Hsame.
  do 5 apply (inj (String.append _)) in Hsame.
  assert (Hidx : isolate_data_indices data1 = isolate_data_indices data2).
  { refine (proj1 (comma_separated_inj _ _ "}"%char _ _ eq_refl _ Hsame)).
    intros [| ? ?]; discriminate. }
  split; [exact Hidx |].
  rewrite Hidx in Hsame. do 2 apply (inj (String.append _)) in Hsame.
  exact (append_inj_r _ _ _ Hsame).
Qed.

(** *** The builder, case by case *)

Local Abbreviation passes :=
  (build_passes (EnvSerializeInfoRest:=EnvSerializeInfoRest)
     kNodeContextIndex CanBeRehashed).

(** The first part of Generate, answer by answer in program order; [t]
    closes the cases. *)
Ltac walk_blob ncc rbc rbe bs lec lee sel selc ac cb inspector debug t :=
  destruct ncc; cbn; [t |];
  destruct rbc; cbn; (destruct rbe; cbn; [t |]);
  (destruct bs; cbn;
   [ destruct inspector; cbn;
     (destruct lec; cbn;
      (destruct lee; cbn;
       [t | destruct (Z.eqb_spec (FromMaybe sel 1) 0); cbn;
            [try (destruct selc; cbn; [t |]) | t]]))
   | ]);
  try t;
  destruct debug; cbn;
  (destruct (Z.eqb_spec ac kNodeContextIndex); cbn; [| t]);
  (destruct (CanBeRehashed cb) eqn:?; cbn; [| t]);
  t.

Lemma Generate_blob_returns_iff (host : Host) out :
  result (Generate_blob host out) = Return tt
  <-> (NewContext_caught host = false
       /\ RunBootstrapping_empty host = false
       /\ (build_snapshot host = true ->
           LoadEnvironment_empty host = false
           /\ FromMaybe (SpinEventLoop host) 1 = 0
           /\ LoadEnvironment_caught host = false
           /\ SpinEventLoop_caught host = false)
       /\ AddContext host = kNodeContextIndex
       /\ CanBeRehashed (CreateBlob host) = true).
Proof.
  destruct host as [bs ids ncc rbc rbe lec lee sel selc ea es ac cb rq hq].
  unfold SnapshotBuilder_Generate_blob, ToLocalChecked, CHECK. run.
  walk_blob ncc rbc rbe bs lec lee sel selc ac cb HAVE_INSPECTOR debug_mksnapshot
    ltac:(solve [intuition (try discriminate; try congruence)]).
Qed.

Lemma Generate_blob_trace (host : Host) out :
  hd_error (trace (Generate_blob host out)) = Some EvRegisterIsolate
  /\ Forall (fun e => ~ teardown_event e) (trace (Generate_blob host out)).
Proof.
  destruct host as [bs ids ncc rbc rbe lec lee sel selc ea es ac cb rq hq].
  unfold SnapshotBuilder_Generate_blob, ToLocalChecked, CHECK. run.
  walk_blob ncc rbc rbe bs lec lee sel selc ac cb HAVE_INSPECTOR debug_mksnapshot
    ltac:(solve [split; [reflexivity |];
                 repeat (apply Forall_cons; [intros [H | [H | H]]; discriminate H |]);
                 apply Forall_nil]).
Qed.

Lemma Generate_handles_trace (host : Host) out :
  Generate_handles host out
  = mkOutcome
      ((if negb (req_wrap_queue_IsEmpty host) || negb (handle_wrap_queue_IsEmpty host)
           || debug_mksnapshot
        then [EvPrintLibuvHandleInformation] else [])
       ++ (if req_wrap_queue_IsEmpty host && handle_wrap_queue_IsEmpty host
           then [EvFreeEnvironment; EvDispose; EvUnregisterIsolate] else []))
      out
      (if req_wrap_queue_IsEmpty host
       then if handle_wrap_queue_IsEmpty host
            then Return tt
            else Fatal (CheckFailed "env->handle_wrap_queue()->IsEmpty()")
       else Fatal (CheckFailed "env->req_wrap_queue()->IsEmpty()")).
Proof.
  unfold SnapshotBuilder_Generate_handles, CHECK. run.
  destruct (req_wrap_queue_IsEmpty host), (handle_wrap_queue_IsEmpty host),
    debug_mksnapshot; reflexivity.
Qed.

Lemma Generate_returns_iff (host : Host) out :
  (returned (Generate host out) <-> passes host)
  /\ (passes host ->
      result (Generate host out) = Return tt
      /\ final (Generate host out) = built host)
  /\ (~ passes host -> aborted (Generate host out)).
Proof.
  assert (Hiff := Generate_blob_returns_iff host out).
  assert (Hcases := Generate_blob_cases host out). cbv zeta in Hcases.
  unfold SnapshotBuilder_Generate, build_passes, built.
  destruct Hcases as [(Hr & Hfin & _) | (f & Hf & _)].
  - rewrite (bind_Return _ _ _ _ Hr), Generate_handles_trace. cbn [result final].
    apply Hiff in Hr. rewrite Hfin. unfold returned, aborted.
    destruct (req_wrap_queue_IsEmpty host), (handle_wrap_queue_IsEmpty host);
      cbn; (split; [| split]).
    all: try (split; [intros [a Ha]; try discriminate Ha | intros H]).
    all: try solve [intuition (try discriminate; eauto)].
  - rewrite (bind_Fatal _ _ _ _ Hf). cbn [result final].
    assert (Hno : ~ (NewContext_caught host = false
       /\ RunBootstrapping_empty host = false
       /\ (build_snapshot host = true ->
           LoadEnvironment_empty host = false
           /\ FromMaybe (SpinEventLoop host) 1 = 0
           /\ LoadEnvironment_caught host = false
           /\ SpinEventLoop_caught host = false)
       /\ AddContext host = kNodeContextIndex
       /\ CanBeRehashed (CreateBlob host) = true)).
    { intros H. apply Hiff in H. congruence. }
    unfold returned, aborted. split; [| split].
    + split; [intros [a Ha]; discriminate Ha | intros H; exfalso; apply Hno; tauto].
    + intros H; exfalso; apply Hno; tauto.
    + intros _. exists f. reflexivity.
Qed.

(** X5: Generate returns exactly when no script failed, the event loop of an
    entry point ended with exit code 0, the context got index
    kNodeContextIndex, the blob can be rehashed and both queues are empty;
    it then leaves in [*out] the blob, the isolate data indices and the
    env_info the collaborators produced, whatever [*out] held before.  In
    every other case the process is terminated. *)
Theorem X5_Generate_returns_iff (host : Host) out :
  (returned (Generate host out) <-> passes host)
  /\ (passes host ->
      result (Generate host out) = Return tt
      /\ final (Generate host out) = built host)
  /\ (~ passes host -> aborted (Generate host out)).
Proof. exact (Generate_returns_iff host out). Qed.

(** X6: the isolate is registered before anything else; the environment is
    freed, the instance disposed and the isolate unregistered, in this order
    and as the last three actions, in a build that returns, and none of the
    three happens in a build that is terminated. *)
Theorem X6_Generate_teardown (host : Host) out :
  let o := Generate host out in
  hd_error (trace o) = Some EvRegisterIsolate
  /\ (returned o ->
      exists t, trace o = t ++ [EvFreeEnvironment; EvDispose; EvUnregisterIsolate]
                /\ Forall (fun e => ~ teardown_event e) t)
  /\ (~ returned o -> Forall (fun e => ~ teardown_event e) (trace o)).
Proof.
  cbv zeta. destruct (Generate_blob_trace host out) as [Hhd Hno].
  assert (Hcases := Generate_blob_cases host out). cbv zeta in Hcases.
  unfold SnapshotBuilder_Generate.
  destruct Hcases as [(Hr & _) | (f & Hf & _)].
  - rewrite (bind_Return _ _ _ _ Hr), Generate_handles_trace. cbn [result trace].
    destruct (trace (Generate_blob host out)) as [| e t] eqn:Ht; [discriminate Hhd |].
    split; [exact Hhd |]. unfold returned.
    assert (Hdump : ~ teardown_event EvPrintLibuvHandleInformation)
      by (intros [H | [H | H]]; discriminate H).
    destruct (req_wrap_queue_IsEmpty host), (handle_wrap_queue_IsEmpty host),
      debug_mksnapshot; cbn [negb orb andb]; split.
    all: try (intros [a Ha]; discriminate Ha).
    all: try (intros _; rewrite ?app_nil_r; apply Forall_app; split;
              [exact Hno | repeat constructor; exact Hdump]).
    all: try (intros Hnot; exfalso; apply Hnot; eexists; reflexivity).
    + intros _. exists ((e :: t) ++ [EvPrintLibuvHandleInformation]).
      split; [rewrite <- app_assoc; reflexivity |].
      apply Forall_app. split; [exact Hno | repeat constructor; exact Hdump].
    + intros _. exists (e :: t). split; [reflexivity | exact Hno].
  - rewrite (bind_Fatal _ _ _ _ Hf). cbn [result trace].
    split; [exact Hhd |]. split; [intros [a Ha]; discriminate Ha | intros _; exact Hno].
Qed.

Lemma Generate_blob_exit_code (host : Host) out :
  build_snapshot host = true ->
  NewContext_caught host = false ->
  RunBootstrapping_empty host = false ->
  LoadEnvironment_empty host = false ->
  FromMaybe (SpinEventLoop host) 1 <> 0 ->
  result (Generate_blob host out) = Fatal (CheckFailed "exit_code == 0").
Proof.
  destruct host as [bs ids ncc rbc rbe lec lee sel selc ea es ac cb rq hq].
  cbn. intros -> -> -> -> Hcode.
  unfold SnapshotBuilder_Generate_blob, ToLocalChecked, CHECK. run.
  destruct rbc; cbn; destruct HAVE_INSPECTOR; cbn; destruct lec; cbn;
    (destruct (Z.eqb_spec (FromMaybe sel 1) 0); cbn; [contradiction | reflexivity]).
Qed.

(** X7: when an entry point is run, an event loop that ends with a non-zero
    exit code, or with none (which counts as 1), terminates the build; when
    the scripts gave their results the build ends in the CHECK on the exit
    code, before any exception the entry point left behind is looked at. *)
Theorem X7_Generate_exit_code (host : Host) out :
  build_snapshot host = true ->
  SpinEventLoop host <> Some 0 ->
  aborted (Generate host out)
  /\ (NewContext_caught host = false ->
      RunBootstrapping_empty host = false ->
      LoadEnvironment_empty host = false ->
      result (Generate host out) = Fatal (CheckFailed "exit_code == 0")).
Proof.
  intros Hbs Hloop.
  assert (Hcode : FromMaybe (SpinEventLoop host) 1 <> 0).
  { destruct (SpinEventLoop host) as [code |]; cbn; [congruence | lia]. }
  split.
  - apply (proj2 (proj2 (Generate_returns_iff host out))).
    unfold build_passes. intros (_ & _ & Hentry & _).
    destruct (Hentry Hbs) as (_ & Hzero & _). contradiction.
  - intros Hncc Hrbe Hlee. unfold SnapshotBuilder_Generate.
    rewrite (bind_Fatal _ _ _ _
               (Generate_blob_exit_code host out Hbs Hncc Hrbe Hlee Hcode)).
    reflexivity.
Qed.

(** *** What the debug category and the entry point do not change *)

Lemma same_effect_refl {S A} (o : Outcome S A) : same_effect o o.
Proof. split; reflexivity. Qed.

Lemma same_effect_trans {S A} (o1 o2 o3 : Outcome S A) :
  same_effect o1 o2 -> same_effect o2 o3 -> same_effect o1 o3.
Proof. intros [H1 H2] [H3 H4]. split; congruence. Qed.

Lemma same_effect_sym {S A} (o1 o2 : Outcome S A) :
  same_effect o1 o2 -> same_effect o2 o1.
Proof. intros [H1 H2]. split; congruence. Qed.

Lemma same_effect_bind {S A B} (m1 m2 : Run S A) (k1 k2 : A -> Run S B) s :
  same_effect (m1 s) (m2 s) ->
  (forall a s', same_effect (k1 a s') (k2 a s')) ->
  same_effect (bind m1 k1 s) (bind m2 k2 s).
Proof.
  unfold same_effect, bind. intros [Hr Hf] Hk.
  destruct (m1 s) as [t1 s1 r1], (m2 s) as [t2 s2 r2]. cbn in Hr, Hf. subst r2 s2.
  destruct r1 as [a | f |]; [| split; reflexivity | split; reflexivity].
  specialize (Hk a s1). destruct (k1 a s1), (k2 a s1). exact Hk.
Qed.

Lemma Deserialize_fields_debug d1 d2 holder index payload (m : Memory) :
  same_effect
    (DeserializeNodeInternalFields d1 SERIALIZABLE_OBJECT_TYPES holder index payload m)
    (DeserializeNodeInternalFields d2 SERIALIZABLE_OBJECT_TYPES holder index payload m).
Proof.
  unfold same_effect, DeserializeNodeInternalFields, SetAlignedPointerInInternalField,
    EnqueueDeserializeRequest. run.
  destruct d1, d2; cbn; (destruct (Z.eqb (raw_size payload) 0); cbn;
    [split; reflexivity |]);
    (destruct (data payload) as [info |]; cbn; [| split; reflexivity]);
    destruct (switch_type _ _); cbn; split; reflexivity.
Qed.

Lemma Serialize_field_debug d1 d2 holder index (m : Memory) :
  same_effect
    (SerializeNodeContextInternalFields d1 SERIALIZABLE_OBJECT_TYPES kSlot DEBUG
       holder index m)
    (SerializeNodeContextInternalFields d2 SERIALIZABLE_OBJECT_TYPES kSlot DEBUG
       holder index m).
Proof.
  unfold same_effect, SerializeNodeContextInternalFields,
    GetAlignedPointerFromInternalField, DCHECK, GetTypeNameChars, is_snapshotable,
    UNREACHABLE. run.
  destruct d1, d2; cbn;
    (destruct (internal_fields m (holder, kSlot)) as [| base]; cbn;
     [split; reflexivity |]);
    destruct DEBUG; cbn;
    (destruct (snapshotable base) as [obj |]; cbn; [| split; reflexivity]);
    destruct (switch_type _ _); cbn; split; reflexivity.
Qed.

Lemma iterator_debug d1 d2 (env : Environment) key binding
    (c : @Captured SnapshotCreator EnvSerializeInfoRest) :
  same_effect
    (SerializeBindingData_iterator AddData d1 SERIALIZABLE_OBJECT_TYPES env key binding c)
    (SerializeBindingData_iterator AddData d2 SERIALIZABLE_OBJECT_TYPES env key binding c).
Proof.
  unfold same_effect, SerializeBindingData_iterator, UNREACHABLE. run.
  destruct (IsSnapshotableType SERIALIZABLE_OBJECT_TYPES key);
    [destruct (AddData (cap_creator c) (context env) (object binding)) |];
    destruct d1, d2; cbn; try (split; reflexivity);
    destruct (snapshotable binding); cbn; split; reflexivity.
Qed.

Lemma ForEachBindingData_debug d1 d2 (env : Environment) data :
  forall c : @Captured SnapshotCreator EnvSerializeInfoRest,
  same_effect
    (ForEachBindingData data
       (SerializeBindingData_iterator AddData d1 SERIALIZABLE_OBJECT_TYPES env) c)
    (ForEachBindingData data
       (SerializeBindingData_iterator AddData d2 SERIALIZABLE_OBJECT_TYPES env) c).
Proof.
  induction data as [| [key binding] data IH]; intros c; [apply same_effect_refl |].
  cbn [ForEachBindingData]. apply same_effect_bind.
  - apply iterator_debug.
  - intros _ s'. apply IH.
Qed.

Lemma Generate_blob_debug d (host : @Host EnvSerializeInfoRest) out :
  same_effect
    (SnapshotBuilder_Generate_blob d kNodeContextIndex CanBeRehashed HAVE_INSPECTOR
       host out)
    (SnapshotBuilder_Generate_blob false kNodeContextIndex CanBeRehashed
       HAVE_INSPECTOR host out).
Proof.
  destruct d; [| apply same_effect_refl].
  destruct host as [bs ids ncc rbc rbe lec lee sel selc ea es ac cb rq hq].
  unfold same_effect, SnapshotBuilder_Generate_blob, ToLocalChecked, CHECK. run.
  walk_blob ncc rbc rbe bs lec lee sel selc ac cb HAVE_INSPECTOR true
    ltac:(solve [split; reflexivity]).
Qed.

Lemma Generate_handles_debug d1 d2 (host : @Host EnvSerializeInfoRest) out :
  same_effect (SnapshotBuilder_Generate_handles d1 host out)
    (SnapshotBuilder_Generate_handles d2 host out).
Proof.
  unfold same_effect, SnapshotBuilder_Generate_handles, CHECK. run.
  destruct (req_wrap_queue_IsEmpty host), (handle_wrap_queue_IsEmpty host), d1, d2;
    split; reflexivity.
Qed.

(** X8: the MKSNAPSHOT debug category changes what is printed and nothing
    else: with it on or off, DeserializeNodeInternalFields,
    SerializeNodeContextInternalFields, SerializeBindingData and Generate end
    the same way (return, value, or the same fatal error) and leave the same
    memory. *)
Theorem X8_debug_only_prints d1 d2 :
  (forall holder index payload (m : Memory),
     same_effect
       (DeserializeNodeInternalFields d1 SERIALIZABLE_OBJECT_TYPES holder index payload m)
       (DeserializeNodeInternalFields d2 SERIALIZABLE_OBJECT_TYPES holder index payload m))
  /\ (forall holder index (m : Memory),
       same_effect
         (SerializeNodeContextInternalFields d1 SERIALIZABLE_OBJECT_TYPES kSlot DEBUG
            holder index m)
         (SerializeNodeContextInternalFields d2 SERIALIZABLE_OBJECT_TYPES kSlot DEBUG
            holder index m))
  /\ (forall (env : Environment) creator (info : @EnvSerializeInfo EnvSerializeInfoRest),
       same_effect
         (SerializeBindingData AddData d1 SERIALIZABLE_OBJECT_TYPES env creator info)
         (SerializeBindingData AddData d2 SERIALIZABLE_OBJECT_TYPES env creator info))
  /\ (forall (host : @Host EnvSerializeInfoRest) out,
       same_effect
         (SnapshotBuilder_Generate d1 kNodeContextIndex CanBeRehashed HAVE_INSPECTOR
            host out)
         (SnapshotBuilder_Generate d2 kNodeContextIndex CanBeRehashed HAVE_INSPECTOR
            host out)).
Proof.
  split; [intros; apply Deserialize_fields_debug |].
  split; [intros; apply Serialize_field_debug |].
  split; [intros; unfold SerializeBindingData; apply ForEachBindingData_debug |].
  intros host out. unfold SnapshotBuilder_Generate. apply same_effect_bind.
  - eapply same_effect_trans; [apply Generate_blob_debug |].
    apply same_effect_sym, Generate_blob_debug.
  - intros _ s'. apply Generate_handles_debug.
Qed.

(** X9: without --build-snapshot the entry point is never run: whatever
    LoadEnvironment and the event loop would answer, Generate and the
    overload that formats the artifact behave the same, printed diagnostics
    included. *)
Theorem X9_no_entry_point (host : Host) out lec lee sel selc :
  build_snapshot host = false ->
  Generate (with_entry_point host lec lee sel selc) out = Generate host out
  /\ Generate_string (with_entry_point host lec lee sel selc) out
     = Generate_string host out.
Proof.
  destruct host as [bs ids ncc rbc rbe lec0 lee0 sel0 selc0 ea es ac cb rq hq].
  cbn. intros ->.
  assert (Hsame : Generate
            (with_entry_point
               (mkHost false ids ncc rbc rbe lec0 lee0 sel0 selc0 ea es ac cb rq hq)
               lec lee sel selc) out
          = Generate
              (mkHost false ids ncc rbc rbe lec0 lee0 sel0 selc0 ea es ac cb rq hq)
              out) by reflexivity.
  split; [exact Hsame |].
  unfold SnapshotBuilder_Generate_string. unfold bind at 1 3.
  rewrite Hsame. reflexivity.
Qed.

(** X10: for answers with which the build passes, the overload that formats
    the artifact returns the artifact of what the collaborators produced,
    whatever the local SnapshotData held before, provided the blob it got is
    readable; a blob whose [raw_size] exceeds its buffer makes FormatBlob read
    beyond it. *)
Theorem X10_Generate_string_artifact (host : Host) data_ :
  passes host ->
  (SnapshotData_readable (built host) ->
   result (Generate_string host data_)
   = Return (artifact print_EnvSerializeInfo (built host)))
  /\ (Z.of_nat (List.length (buffer (data (CreateBlob host))))
      < to_size_t (raw_size (CreateBlob host)) ->
      result (Generate_string host data_) = Undefined).
Proof.
  intros Hpass.
  destruct (proj1 (proj2 (Generate_returns_iff host data_)) Hpass) as [Hr Hfin].
  unfold SnapshotBuilder_Generate_string.
  rewrite (bind_Return _ _ _ _ Hr). cbn [result]. rewrite Hfin.
  unfold bind, get. cbn. split.
  - intros Hread. rewrite (FormatBlob_artifact _ Hread). reflexivity.
  - intros Hout.
    destruct (FormatBlob print_EnvSerializeInfo (built host)) as [s |] eqn:Hfmt;
      [| reflexivity].
    assert (Hsome : is_Some (FormatBlob print_EnvSerializeInfo (built host)))
      by (eexists; exact Hfmt).
    apply FormatBlob_defined in Hsome. cbn in Hsome. lia.
Qed.

(** *** What decoding leaves alone, and how it ends *)

(** X11: whatever the payload, DeserializeNodeInternalFields touches no
    internal field but the one it is called for, leaves the context and the
    bindings of the environment alone, removes or reorders no queued request
    and appends at most one, for its own holder and slot; when it does not
    return it has changed nothing at all. *)
Theorem X11_Deserialize_frame holder index payload (m : Memory) :
  let o := Deserialize_fields holder index payload m in
  (forall slot, slot <> (holder, index) ->
     internal_fields (final o) slot = internal_fields m slot)
  /\ context (environment (final o)) = context (environment m)
  /\ binding_data (environment (final o)) = binding_data (environment m)
  /\ (exists added,
        deserialize_requests (environment (final o))
        = deserialize_requests (environment m) ++ added
        /\ (List.length added <= 1)%nat
        /\ Forall (fun r => req_holder r = holder /\ req_index r = index) added)
  /\ (~ returned o -> final o = m).
Proof.
  cbv zeta.
  unfold returned, DeserializeNodeInternalFields, SetAlignedPointerInInternalField,
    EnqueueDeserializeRequest, UNREACHABLE. run.
  destruct debug_mksnapshot; cbn;
    (destruct (Z.eqb (raw_size payload) 0); cbn;
     [| destruct (data payload) as [info |]; cbn;
        [destruct (switch_type _ _) as [ty |]; cbn |]]).
  all: split; [intros slot Hne; try reflexivity; apply fn_lookup_insert_ne; congruence |].
  all: split; [reflexivity |]. all: split; [reflexivity |].
  all: split;
    [first [ exists []; split; [symmetry; apply app_nil_r |];
             split; [cbn; lia | constructor]
           | eexists [_]; split; [reflexivity |];
             split; [cbn; lia | repeat constructor] ] |].
  all: intros Hnot; try reflexivity; exfalso; apply Hnot; eexists; reflexivity.
Qed.

Lemma Deserialize_fields_unknown holder index payload info (m : Memory) :
  raw_size payload <> 0 ->
  data payload = Some info ->
  switch_type SERIALIZABLE_OBJECT_TYPES (InternalFieldInfo.type info) = None ->
  result (Deserialize_fields holder index payload m) = Fatal Unreachable.
Proof.
  intros Hsize Hdata Hty. unfold DeserializeNodeInternalFields.
  apply Z.eqb_neq in Hsize. rewrite Hsize, Hdata, Hty. run.
  destruct debug_mksnapshot; reflexivity.
Qed.

Lemma Deserialize_fields_null_data holder index payload (m : Memory) :
  raw_size payload <> 0 ->
  data payload = None ->
  result (Deserialize_fields holder index payload m) = Undefined.
Proof.
  intros Hsize Hdata. unfold DeserializeNodeInternalFields.
  apply Z.eqb_neq in Hsize. rewrite Hsize, Hdata. run.
  destruct debug_mksnapshot; reflexivity.
Qed.

Variable sizeof_InternalFieldInfo : Z.

(** X12: the three ways DeserializeNodeInternalFields ends on a payload that
    is empty or whose [raw_size] bytes cover an InternalFieldInfo.  It
    returns exactly for a payload that is empty or carries the tag of a
    registered kind, it ends in UNREACHABLE() exactly for a non-empty payload
    with a tag that is not registered, and it is without defined behaviour
    exactly for a non-empty payload behind a null pointer.  (A non-empty
    payload shorter than an InternalFieldInfo is read beyond its end and is
    no part of the statement.) *)
Theorem X12_Deserialize_outcomes holder index payload (m : Memory) :
  in_bounds sizeof_InternalFieldInfo payload ->
  let o := Deserialize_fields holder index payload m in
  (returned o
   <-> raw_size payload = 0
       \/ exists info ty,
            data payload = Some info
            /\ switch_type SERIALIZABLE_OBJECT_TYPES (InternalFieldInfo.type info)
               = Some ty)
  /\ (result o = Fatal Unreachable
      <-> raw_size payload <> 0
          /\ exists info, data payload = Some info
                          /\ switch_type SERIALIZABLE_OBJECT_TYPES
                               (InternalFieldInfo.type info) = None)
  /\ (result o = Undefined <-> raw_size payload <> 0 /\ data payload = None).
Proof.
  intros _. cbv zeta. unfold returned.
  destruct (Z.eq_dec (raw_size payload) 0) as [Hz | Hnz].
  - rewrite (Deserialize_fields_empty _ _ _ m Hz). cbn [result].
    split; [split; [intros _; left; exact Hz | intros _; eexists; reflexivity] |].
    split; (split; [discriminate | intros [H _]; contradiction]).
  - destruct (data payload) as [info |] eqn:Hdata.
    + destruct (switch_type SERIALIZABLE_OBJECT_TYPES (InternalFieldInfo.type info))
        as [ty |] eqn:Hty.
      * rewrite (Deserialize_fields_registered _ _ _ _ _ m Hnz Hdata Hty).
        cbn [result]. split; [| split].
        -- split; [intros _; right; exists info, ty; split; [reflexivity | exact Hty]
                  | intros _; eexists; reflexivity].
        -- split; [discriminate | intros (_ & info' & [= <-] & Hsw); congruence].
        -- split; [discriminate | intros [_ H]; discriminate H].
      * rewrite (Deserialize_fields_unknown _ _ _ _ m Hnz Hdata Hty).
        split; [| split].
        -- split; [intros [a Ha]; discriminate Ha |].
           intros [H | (info' & ty' & [= <-] & Hsw)]; [contradiction | congruence].
        -- split; [intros _; split; [exact Hnz | exists info; split;
                                                 [reflexivity | exact Hty]]
                  | reflexivity].
        -- split; [discriminate | intros [_ H]; discriminate H].
    + rewrite (Deserialize_fields_null_data _ _ _ m Hnz Hdata).
      split; [| split].
      * split; [intros [a Ha]; discriminate Ha |].
        intros [H | (info' & ty' & H & _)]; [contradiction | discriminate H].
      * split; [discriminate | intros (_ & info' & H & _); discriminate H].
      * split; [intros _; split; [exact Hnz | reflexivity] | reflexivity].
Qed.

(** *** Serializing a field and decoding it again *)

Lemma static_cast_int_zero x : static_cast_int x = 0 <-> x mod 2 ^ 32 = 0.
Proof.
  unfold static_cast_int. change (2 ^ 32) with 4294967296.
  change (2 ^ 31) with 2147483648.
  split; intros H; Z.div_mod_to_equations; lia.
Qed.

(** X13: what SerializeNodeContextInternalFields returns for a snapshotable
    object of a registered kind, handed to DeserializeNodeInternalFields for
    any slot of any memory.  Provided the object writes its own tag in the
    InternalFieldInfo, decoding returns; when the [length] the object declares
    is not a multiple of 2^32, exactly one request is queued, with the
    Deserialize function of the object's kind and the InternalFieldInfo the
    object serialized to, and no slot is written; when it is a multiple of
    2^32 (0 included), the slot is set to the null pointer and nothing is
    queued. *)
Theorem X13_serialize_then_deserialize holder index (m : Memory) base obj ty
    holder' index' (m' : Memory) :
  internal_fields m (holder, kSlot) = pointer base ->
  snapshotable base = Some obj ->
  switch_type SERIALIZABLE_OBJECT_TYPES (type_ obj) = Some ty ->
  InternalFieldInfo.type (Serialize obj index) = type_ obj ->
  exists payload,
    result (Serialize_field holder index m) = Return payload
    /\ let o := Deserialize_fields holder' index' payload m' in
       result o = Return tt
       /\ (InternalFieldInfo.length (Serialize obj index) mod 2 ^ 32 <> 0 ->
           internal_fields (final o) = internal_fields m'
           /\ deserialize_requests (environment (final o))
              = deserialize_requests (environment m')
                ++ [mkDeserializeRequest (Deserialize ty) holder' index'
                      (Serialize obj index)])
       /\ (InternalFieldInfo.length (Serialize obj index) mod 2 ^ 32 = 0 ->
           internal_fields (final o) (holder', index') = nullptr
           /\ environment (final o) = environment m').
Proof.
  intros Hptr Hobj Hty Htag.
  rewrite (Serialize_field_object holder index m base obj ty Hptr Hobj Hty).
  eexists. split; [reflexivity |]. cbv zeta.
  set (info := Serialize obj index) in *.
  set (payload := mkStartupData (Some info)
                    (static_cast_int (InternalFieldInfo.length info))).
  destruct (Z.eq_dec (InternalFieldInfo.length info mod 2 ^ 32) 0) as [Hz | Hnz].
  - assert (Hsize : raw_size payload = 0) by (apply static_cast_int_zero; exact Hz).
    rewrite (Deserialize_fields_empty holder' index' payload m' Hsize).
    cbn [result final internal_fields environment].
    split; [reflexivity |]. split; [intros H; contradiction |].
    intros _. split; [apply fn_lookup_insert | reflexivity].
  - assert (Hsize : raw_size payload <> 0).
    { intros H. apply Hnz. apply static_cast_int_zero. exact H. }
    assert (Hty' : switch_type SERIALIZABLE_OBJECT_TYPES (InternalFieldInfo.type info)
                   = Some ty) by (rewrite Htag; exact Hty).
    rewrite (Deserialize_fields_registered holder' index' payload info ty m'
               Hsize eq_refl Hty').
    cbn [result final internal_fields environment deserialize_requests].
    split; [reflexivity |]. split; [| intros H; contradiction].
    intros _. split; reflexivity.
Qed.

(** *** The two expansions of SERIALIZABLE_OBJECT_TYPES over names *)

(** X14: GetTypeNameChars and IsSnapshotableType agree.  GetTypeNameChars
    prints nothing and changes nothing; it ends in UNREACHABLE() exactly when
    the tag of the object is the tag of no registered kind; every name it
    returns is one IsSnapshotableType accepts, and every key that
    IsSnapshotableType accepts is the name GetTypeNameChars returns for the
    objects of some registered kind, provided the tags of the registered
    kinds are pairwise distinct. *)
Theorem X14_type_names_agree {S} (s : S) :
  (forall obj,
     let o := GetTypeNameChars SERIALIZABLE_OBJECT_TYPES obj s in
     trace o = [] /\ final o = s
     /\ (result o = Fatal Unreachable
         <-> Forall (fun ty => k_ ty <> type_ obj) SERIALIZABLE_OBJECT_TYPES)
     /\ (forall name, result o = Return name ->
           IsSnapshotableType SERIALIZABLE_OBJECT_TYPES name = true)
     /\ (returned o \/ result o = Fatal Unreachable))
  /\ (forall key,
        IsSnapshotableType SERIALIZABLE_OBJECT_TYPES key = true ->
        exists ty, In ty SERIALIZABLE_OBJECT_TYPES /\ type_name ty = key
          /\ (NoDup (map k_ SERIALIZABLE_OBJECT_TYPES) ->
              forall obj, type_ obj = k_ ty ->
                result (GetTypeNameChars SERIALIZABLE_OBJECT_TYPES obj s)
                = Return key)).
Proof.
  split.
  - intros obj. cbv zeta. unfold GetTypeNameChars, UNREACHABLE, returned.
    destruct (switch_type SERIALIZABLE_OBJECT_TYPES (type_ obj)) as [ty |] eqn:Hty; cbn.
    + destruct (switch_type_Some _ _ Hty) as [Hin Hk].
      split; [reflexivity |]. split; [reflexivity |]. split; [split |].
      * discriminate.
      * intros Hall. rewrite Forall_forall in Hall.
        exfalso. exact (Hall ty Hin Hk).
      * split; [| left; eexists; reflexivity].
        intros name [= <-]. unfold IsSnapshotableType. apply existsb_exists.
        exists ty. split; [exact Hin | apply String.eqb_refl].
    + split; [reflexivity |]. split; [reflexivity |]. split; [split |].
      * intros _. unfold switch_type in Hty. apply Forall_forall. intros ty Hin.
        pose proof (List.find_none _ _ Hty ty Hin) as Hne. cbn in Hne.
        apply Z.eqb_neq. exact Hne.
      * reflexivity.
      * split; [discriminate | right; reflexivity].
  - intros key Hkey. unfold IsSnapshotableType in Hkey.
    apply existsb_exists in Hkey as (ty & Hin & Heq).
    apply String.eqb_eq in Heq. exists ty.
    split; [exact Hin |]. split; [symmetry; exact Heq |].
    intros Hnodup obj Htag. unfold GetTypeNameChars.
    destruct (switch_type SERIALIZABLE_OBJECT_TYPES (type_ obj)) as [ty' |] eqn:Hty.
    + destruct (switch_type_Some _ _ Hty) as [Hin' Hk']. cbn.
      assert (ty' = ty) as ->; [| rewrite Heq; reflexivity].
      rewrite Htag in Hk'. clear -Hnodup Hin Hin' Hk'.
      induction SERIALIZABLE_OBJECT_TYPES as [| t types IH]; [destruct Hin |].
      cbn in Hnodup. inversion Hnodup as [| ? ? Hnot Hnodup']; subst.
      destruct Hin as [-> | Hin], Hin' as [-> | Hin'].
      * reflexivity.
      * exfalso. apply Hnot. rewrite <- Hk'. apply list_elem_of_In.
        apply in_map. exact Hin'.
      * exfalso. apply Hnot. rewrite Hk'. apply list_elem_of_In.
        apply in_map. exact Hin.
      * apply IH; assumption.
    + exfalso. unfold switch_type in Hty.
      pose proof (List.find_none _ _ Hty ty Hin) as Hne. cbn in Hne.
      apply Z.eqb_neq in Hne. apply Hne. symmetry. exact Htag.
Qed.

(** *** Where a pass over the bindings ends *)

Lemma iterator_context (env1 env2 : Environment) key binding (c : Captured) :
  context env1 = context env2 ->
  iterator env1 key binding c = iterator env2 key binding c.
Proof.
  intros H. unfold SerializeBindingData_iterator. rewrite H. reflexivity.
Qed.

Lemma ForEachBindingData_context (env1 env2 : Environment) data :
  context env1 = context env2 ->
  forall c : Captured,
  ForEachBindingData data (iterator env1) c = ForEachBindingData data (iterator env2) c.
Proof.
  intros Hctx. induction data as [| [key binding] data IH]; intros c; [reflexivity |].
  cbn [ForEachBindingData]. unfold bind.
  rewrite (iterator_context env1 env2 key binding c Hctx).
  destruct (iterator env2 key binding c) as [t1 s1 [[] | f |]]; [| reflexivity ..].
  rewrite IH. reflexivity.
Qed.

(** X15: SerializeBindingData stops at the first binding that is not
    serializable.  When the bindings before it are serializable, the pass
    does not return: it ends in UNREACHABLE() when the key of that binding
    names no registered kind, and has no defined result when the key is
    registered but the object is no SnapshotableObject.  [info->bindings] has
    gained one record for each binding before it (and one for the binding
    itself in the second case, pushed before the cast), nothing of [*info]
    besides, and the bindings that come after it play no part: the outcome is
    the same for any other environment with the same context and the same
    bindings up to that one. *)
Theorem X15_SerializeBindingData_first_failure (env env' : Environment) creator
    (info : @EnvSerializeInfo EnvSerializeInfoRest) good key binding tail tail' :
  binding_data env = good ++ (key, binding) :: tail ->
  Forall (serializable_binding SERIALIZABLE_OBJECT_TYPES) good ->
  ~ serializable_binding SERIALIZABLE_OBJECT_TYPES (key, binding) ->
  context env' = context env ->
  binding_data env' = good ++ (key, binding) :: tail' ->
  let o := SerializeBindingData AddData debug_mksnapshot
             SERIALIZABLE_OBJECT_TYPES env creator info in
  result o = (if IsSnapshotableType SERIALIZABLE_OBJECT_TYPES key
              then Undefined else Fatal Unreachable)
  /\ (exists recs,
        bindings (cap_info (final o)) = bindings info ++ recs
        /\ List.length recs
           = (List.length good
              + if IsSnapshotableType SERIALIZABLE_OBJECT_TYPES key then 1 else 0)%nat)
  /\ SerializeBindingData AddData debug_mksnapshot
       SERIALIZABLE_OBJECT_TYPES env' creator info = o.
Proof.
  intros Hdata Hgood Hbad Hctx Hdata' o. subst o. unfold SerializeBindingData.
  rewrite Hdata, Hdata'.
  destruct (ForEachBindingData_first_failure env good key binding tail Hgood Hbad
              (mkCaptured 0 creator info)) as (Hres & Hrecs & Heq).
  destruct (ForEachBindingData_first_failure env good key binding tail' Hgood Hbad
              (mkCaptured 0 creator info)) as (_ & _ & Heq').
  split; [exact Hres |]. split; [exact Hrecs |].
  rewrite (ForEachBindingData_context env' env _ Hctx).
  cbv zeta in Heq, Heq'. rewrite Heq, Heq'. reflexivity.
Qed.

Lemma ForEachBindingData_returns_iff (env : Environment) data : forall c : Captured,
  let o := ForEachBindingData data (iterator env) c in
  rest (cap_info (final o)) = rest (cap_info c)
  /\ (returned o <-> Forall (serializable_binding SERIALIZABLE_OBJECT_TYPES) data).
Proof.
  induction data as [| [key binding] data IH]; intros c; cbv zeta.
  - cbn. split; [reflexivity |]. split; [intros _; constructor |].
    intros _. exists tt. reflexivity.
  - cbn [ForEachBindingData].
    destruct (iterator_outcome env key binding c) as (Hrest & Hiff & _).
    destruct (result (iterator env key binding c)) as [[] | f |] eqn:Hr.
    + rewrite (bind_Return _ _ _ _ Hr). unfold returned at 1. cbn [result final].
      destruct (IH (final (iterator env key binding c))) as [Hrest' Hiff'].
      split; [rewrite Hrest'; exact Hrest |]. split.
      * intros Hret. constructor.
        -- apply Hiff. exists tt. exact Hr.
        -- apply Hiff'. exact Hret.
      * intros Hall. inversion Hall as [| ? ? _ Htail]; subst.
        apply Hiff'. exact Htail.
    + rewrite (bind_Fatal _ _ _ _ Hr). unfold returned at 1. cbn [result final].
      split; [exact Hrest |]. split; [intros [a Ha]; discriminate Ha |].
      intros Hall. inversion Hall as [| ? ? Hhead _]; subst.
      apply Hiff in Hhead as [a Ha]. rewrite Hr in Ha. discriminate Ha.
    + rewrite (bind_Undefined _ _ _ Hr). unfold returned at 1. cbn [result final].
      split; [exact Hrest |]. split; [intros [a Ha]; discriminate Ha |].
      intros Hall. inversion Hall as [| ? ? Hhead _]; subst.
      apply Hiff in Hhead as [a Ha]. rewrite Hr in Ha. discriminate Ha.
Qed.

(** X16: SerializeBindingData returns exactly when every binding of the
    environment is serializable (its key names a registered kind and the
    object is a SnapshotableObject); and however it ends, it has touched
    nothing of [*info] but the list of bindings, which it only extends. *)
Theorem X16_SerializeBindingData_returns_iff (env : Environment) creator
    (info : @EnvSerializeInfo EnvSerializeInfoRest) :
  let o := SerializeBindingData AddData debug_mksnapshot
             SERIALIZABLE_OBJECT_TYPES env creator info in
  (returned o
   <-> Forall (serializable_binding SERIALIZABLE_OBJECT_TYPES) (binding_data env))
  /\ rest (cap_info (final o)) = rest info
  /\ exists recs, bindings (cap_info (final o)) = bindings info ++ recs.
Proof.
  cbv zeta. unfold SerializeBindingData.
  destruct (ForEachBindingData_returns_iff env (binding_data env)
              (mkCaptured 0 creator info)) as [Hrest Hiff].
  split; [exact Hiff |]. split; [exact Hrest |].
  clear Hrest Hiff.
  change (bindings info) with (bindings (cap_info (mkCaptured 0 creator info))).
  generalize (mkCaptured 0 creator info) as c.
  induction (binding_data env) as [| [key binding] data IH]; intros c.
  - exists []. cbn. rewrite app_nil_r. reflexivity.
  - cbn [ForEachBindingData].
    destruct (iterator_step env key binding c) as (recs1 & Happ1 & _).
    destruct (result (iterator env key binding c)) as [[] | f |] eqn:Hr.
    + rewrite (bind_Return _ _ _ _ Hr). cbn [final].
      destruct (IH (final (iterator env key binding c))) as [recs Happ].
      exists (recs1 ++ recs). rewrite Happ, Happ1, <- app_assoc. reflexivity.
    + rewrite (bind_Fatal _ _ _ _ Hr). cbn [final]. exists recs1. exact Happ1.
    + rewrite (bind_Undefined _ _ _ Hr). cbn [final]. exists recs1. exact Happ1.
Qed.

(** *** Exceptions are printed before the process ends *)

Lemma Generate_blob_reports (host : Host) out :
  let o := Generate_blob host out in
  (result o = Fatal AbortCalled -> list.last (trace o) = Some EvPrintCaughtException)
  /\ (In EvPrintCaughtException (trace o) ->
      NewContext_caught host = true
      \/ RunBootstrapping_caught host = true
      \/ (build_snapshot host = true
          /\ (LoadEnvironment_caught host = true \/ SpinEventLoop_caught host = true)))
  /\ (NewContext_caught host = false -> RunBootstrapping_caught host = true ->
      In EvPrintCaughtException (trace o))
  /\ (result o = Fatal ToLocalCheckedEmpty ->
      RunBootstrapping_empty host = true
      \/ (build_snapshot host = true /\ LoadEnvironment_empty host = true)).
Proof.
  destruct host as [bs ids ncc rbc rbe lec lee sel selc ea es ac cb rq hq].
  unfold SnapshotBuilder_Generate_blob, ToLocalChecked, CHECK. run.
  walk_blob ncc rbc rbe bs lec lee sel selc ac cb HAVE_INSPECTOR debug_mksnapshot
    ltac:(solve [split; [first [discriminate | intros _; reflexivity] |];
                 split; [cbn; intuition (try discriminate; try reflexivity) |];
                 split; [cbn; intuition (try discriminate; try reflexivity) |];
                 first [discriminate | intros _; auto]]).
Qed.

(** X17: what Generate prints of the exceptions its TryCatch blocks catch.
    abort() is called only right after PrintCaughtException; nothing is
    printed as a caught exception unless a TryCatch has caught one; an
    exception caught while the bootstrap scripts ran is printed even when
    RunBootstrapping still gave a result and the build goes on; and
    ToLocalChecked() ends the build only for a script that gave no
    result. *)
Theorem X17_Generate_reports_exceptions (host : Host) out :
  let o := Generate host out in
  (result o = Fatal AbortCalled -> list.last (trace o) = Some EvPrintCaughtException)
  /\ (In EvPrintCaughtException (trace o) ->
      NewContext_caught host = true
      \/ RunBootstrapping_caught host = true
      \/ (build_snapshot host = true
          /\ (LoadEnvironment_caught host = true \/ SpinEventLoop_caught host = true)))
  /\ (NewContext_caught host = false -> RunBootstrapping_caught host = true ->
      In EvPrintCaughtException (trace o))
  /\ (result o = Fatal ToLocalCheckedEmpty ->
      RunBootstrapping_empty host = true
      \/ (build_snapshot host = true /\ LoadEnvironment_empty host = true)).
Proof.
  cbv zeta.
  destruct (Generate_blob_reports host out) as (Habort & Honly & Hprinted & Hempty).
  assert (Hcases := Generate_blob_cases host out). cbv zeta in Hcases.
  unfold SnapshotBuilder_Generate.
  destruct Hcases as [(Hr & _) | (f & Hf & _)].
  - rewrite (bind_Return _ _ _ _ Hr), Generate_handles_trace. cbn [result trace].
    split; [| split; [| split]].
    + destruct (req_wrap_queue_IsEmpty host), (handle_wrap_queue_IsEmpty host);
        intros H; discriminate H.
    + intros Hin. apply in_app_or in Hin as [Hin | Hin]; [exact (Honly Hin) |].
      exfalso.
      destruct (req_wrap_queue_IsEmpty host), (handle_wrap_queue_IsEmpty host),
        debug_mksnapshot; cbn in Hin; intuition discriminate.
    + intros Hncc Hrbc. apply in_or_app. left. exact (Hprinted Hncc Hrbc).
    + destruct (req_wrap_queue_IsEmpty host), (handle_wrap_queue_IsEmpty host);
        intros H; discriminate H.
  - rewrite (bind_Fatal _ _ _ _ Hf). cbn [result trace].
    rewrite Hf in Habort, Hempty.
    split; [exact Habort |]. split; [exact Honly |]. split; [exact Hprinted |].
    exact Hempty.
Qed.

End Properties.

(** ** The functions at work *)

Example Deserialize_empty_payload :
  DeserializeNodeInternalFields true ex_types 7%nat 0
    (mkStartupData (Some (InternalFieldInfo.mk 1 0 [])) 0) ex_memory
  = mkOutcome
      [EvDebug "Deserialize internal field %d of %p, size=%d\n"
         [AInt 0; APtr 7%nat; AInt 0]]
      (mkMemory (<[(7%nat, 0) := nullptr]> ex_fields) (mkEnvironment 5%nat [] []))
      (Return tt).
Proof. reflexivity. Qed.

Example Deserialize_registered_payload :
  let info := InternalFieldInfo.mk 2 16 [] in
  DeserializeNodeInternalFields false ex_types 7%nat 0
    (mkStartupData (Some info) 16) ex_memory
  = mkOutcome []
      (mkMemory ex_fields
         (mkEnvironment 5%nat
            [mkDeserializeRequest (ex_Deserialize 2) 7%nat 0 info] []))
      (Return tt).
Proof. reflexivity. Qed.

Example Deserialize_unknown_tag :
  DeserializeNodeInternalFields false ex_types 7%nat 0
    (mkStartupData (Some (InternalFieldInfo.mk 255 16 [])) 16) ex_memory
  = mkOutcome [] ex_memory (Fatal Unreachable).
Proof. reflexivity. Qed.

Example Serialize_field_examples :
  result (SerializeNodeContextInternalFields false ex_types 1 true 7%nat 0
            ex_serialize_memory)
  = Return (mkStartupData None 0)
  /\ result (SerializeNodeContextInternalFields false ex_types 1 true 10%nat 0
               ex_serialize_memory)
     = Return (mkStartupData (Some (InternalFieldInfo.mk 1 16 [])) 16)
  /\ result (SerializeNodeContextInternalFields false ex_types 1 true 11%nat 0
               ex_serialize_memory)
     = Fatal (DCheckFailed "static_cast<BaseObject*>(ptr)->is_snapshotable()")
  /\ result (SerializeNodeContextInternalFields false ex_types 1 false 11%nat 0
               ex_serialize_memory)
     = Undefined.
Proof. repeat split; reflexivity. Qed.

(** The binding "fs", enumerated third, gets ordinal 2 and the index the
    creator hands out at that point. *)
Example SerializeBindingData_example :
  let o := SerializeBindingData ex_AddData false ex_types ex_env 15%nat ex_info in
  result o = Return tt
  /\ bindings (cap_info (final o))
     = [PropInfo.mk "node::BlobBindingData" 0 15;
        PropInfo.mk "node::v8::BindingData" 1 16;
        PropInfo.mk "node::fs::BindingData" 2 17]
  /\ cap_i (final o) = 3.
Proof. repeat split; reflexivity. Qed.

Example SerializeBindingData_unregistered :
  let o := SerializeBindingData ex_AddData false ex_types ex_env_unregistered
             15%nat ex_info in
  result o = Fatal Unreachable
  /\ bindings (cap_info (final o)) = [PropInfo.mk "node::BlobBindingData" 0 15].
Proof. repeat split; reflexivity. Qed.

Example WriteVector_examples :
  WriteVector (pretty : Z -> string) [1; -2; 127] 3 = Some ("1,-2,127" +:+ nl)
  /\ WriteVector (pretty : Z -> string) [1; -2; 127] 0 = Some ""
  /\ WriteVector (pretty : Z -> string) [1; -2; 127] 2 = Some ("1,-2" +:+ nl)
  /\ WriteVector (pretty : Z -> string) [1; -2; 127] 4 = None.
Proof. repeat split; vm_compute; reflexivity. Qed.

Example FormatBlob_example :
  FormatBlob ex_print ex_data
  = Some (FormatBlob_head +:+ "1,-2,127" +:+ nl
          +:+ FormatBlob_size +:+ "3"
          +:+ FormatBlob_indices +:+ "0,1,2" +:+ nl
          +:+ FormatBlob_env_info +:+ "{ 0 bindings }"
          +:+ FormatBlob_tail).
Proof. vm_compute. reflexivity. Qed.

Example Generate_example :
  SnapshotBuilder_Generate true 0 ex_CanBeRehashed true
    (ex_host false 0 ex_blob true true) ex_out
  = mkOutcome
      [EvRegisterIsolate; EvPrintAllBaseObjects;
       EvPrintf "Environment = %p\n" [APtr 4096%nat];
       EvPrintLibuvHandleInformation;
       EvFreeEnvironment; EvDispose; EvUnregisterIsolate]
      ex_data (Return tt).
Proof. reflexivity. Qed.

Example Generate_bootstrap_failure :
  SnapshotBuilder_Generate false 0 ex_CanBeRehashed true
    (ex_host true 0 ex_blob true true) ex_out
  = mkOutcome [EvRegisterIsolate; EvPrintCaughtException]
      (mkSnapshotData (mkStartupData None 0) [0; 1; 2] ex_info)
      (Fatal ToLocalCheckedEmpty).
Proof. reflexivity. Qed.

(** ** The theorems at concrete inputs *)

Lemma C1_witness :
  let payload := mkStartupData (Some (InternalFieldInfo.mk 1 0 [])) 0 in
  raw_size payload = 0
  /\ let o := DeserializeNodeInternalFields true ex_types 7%nat 0 payload ex_memory in
     result o = Return tt
     /\ internal_fields (final o) (7%nat, 0) = nullptr
     /\ environment (final o) = environment ex_memory.
Proof.
  split; [reflexivity |].
  destruct (C1_empty_payload_sets_null true ex_types 7%nat 0
              (mkStartupData (Some (InternalFieldInfo.mk 1 0 [])) 0) ex_memory
              eq_refl) as (Hresult & Hslot & _ & Henv & _).
  split; [exact Hresult |]. split; [exact Hslot | exact Henv].
Defined.

(** C2 as the specification states it does not hold: a payload of length 0
    whose data pointer is set leaves the slot in the state the empty marker
    leaves it in, the null pointer, which is the state of a slot without
    object; and where the slot held the null pointer before, in the state of
    a slot that was never decoded. *)
Lemma C2_counterexample :
  let present_but_empty := mkStartupData (Some (InternalFieldInfo.mk 1 0 [])) 0 in
  let no_info := mkStartupData None 0 in
  let slot payload :=
    internal_fields
      (final (DeserializeNodeInternalFields false ex_types 7%nat 0 payload ex_memory))
      (7%nat, 0) in
  let slot' :=
    internal_fields
      (final (DeserializeNodeInternalFields false ex_types 7%nat 1
                present_but_empty ex_serialize_memory))
      (7%nat, 1) in
  ~ (slot present_but_empty <> slot no_info)
  /\ slot present_but_empty = nullptr
  /\ ~ (slot' <> internal_fields ex_serialize_memory (7%nat, 1)).
Proof.
  cbv zeta. split; [intros Hne; apply Hne; reflexivity |].
  split; [reflexivity | intros Hne; apply Hne; reflexivity].
Qed.

Lemma C2_witness :
  let payload := mkStartupData (Some (InternalFieldInfo.mk 1 0 [])) 0 in
  raw_size payload = 0
  /\ DeserializeNodeInternalFields false ex_types 7%nat 0 payload ex_memory
     = DeserializeNodeInternalFields false ex_types 7%nat 0 empty_marker ex_memory
  /\ result (SerializeNodeContextInternalFields false ex_types 1 true 7%nat 0
               (final (DeserializeNodeInternalFields false ex_types 7%nat 1
                         payload ex_memory)))
     = Return empty_marker.
Proof.
  split; [reflexivity |].
  destruct (C2_empty_payload_is_no_object false ex_types 1 true 7%nat 0
              (mkStartupData (Some (InternalFieldInfo.mk 1 0 [])) 0)
              ex_memory eq_refl) as (Hsame & _ & Hround).
  split; [exact Hsame | exact (Hround 0)].
Defined.

Lemma C3_witness :
  let info := InternalFieldInfo.mk 255 16 [] in
  let payload := mkStartupData (Some info) 16 in
  let failing_host := ex_host true 0 ex_blob true true in
  raw_size payload <> 0
  /\ data payload = Some info
  /\ Forall (fun ty => k_ ty <> InternalFieldInfo.type info) ex_types
  /\ bootstrap_failed failing_host
  /\ let o := DeserializeNodeInternalFields false ex_types 7%nat 0 payload ex_memory in
     result o = Fatal Unreachable
     /\ final o = ex_memory
     /\ result (SnapshotBuilder_Generate false 0 ex_CanBeRehashed true
                  failing_host ex_out) <> result o.
Proof.
  assert (Hsize : (16 : Z) <> 0) by lia.
  assert (Htags : Forall (fun ty : @SerializableObjectType nat => k_ ty <> 255)
                    ex_types)
    by (repeat constructor; cbn; lia).
  assert (Hfailed : bootstrap_failed (ex_host true 0 ex_blob true true))
    by (right; left; reflexivity).
  split; [exact Hsize |]. split; [reflexivity |]. split; [exact Htags |].
  split; [exact Hfailed |].
  destruct (C3_unknown_tag_is_fatal (EnvSerializeInfoRest:=unit) false ex_types 0
              ex_CanBeRehashed true
              7%nat 0 (mkStartupData (Some (InternalFieldInfo.mk 255 16 [])) 16)
              (InternalFieldInfo.mk 255 16 []) ex_memory Hsize eq_refl Htags)
    as (Hresult & Hfinal & _ & Hbuilder).
  split; [exact Hresult |]. split; [exact Hfinal |].
  exact (proj2 (Hbuilder (ex_host true 0 ex_blob true true) ex_out Hfailed)).
Defined.

Lemma C4_witness :
  let info := InternalFieldInfo.mk 2 16 [] in
  let payload := mkStartupData (Some info) 16 in
  let ty := mkSerializableObjectType "v8_binding_data" "v8_utils::BindingData" 2
              "node::v8::BindingData" (ex_Deserialize 2) in
  raw_size payload <> 0
  /\ data payload = Some info
  /\ switch_type ex_types (InternalFieldInfo.type info) = Some ty
  /\ let o := DeserializeNodeInternalFields false ex_types 7%nat 0 payload ex_memory in
     result o = Return tt
     /\ internal_fields (final o) = internal_fields ex_memory
     /\ deserialize_requests (environment (final o))
        = [mkDeserializeRequest (ex_Deserialize 2) 7%nat 0 info].
Proof.
  assert (Hsize : (16 : Z) <> 0) by lia.
  split; [exact Hsize |]. split; [reflexivity |]. split; [reflexivity |].
  destruct (C4_registered_payload_is_queued false ex_types 7%nat 0
              (mkStartupData (Some (InternalFieldInfo.mk 2 16 [])) 16)
              (InternalFieldInfo.mk 2 16 [])
              (mkSerializableObjectType "v8_binding_data" "v8_utils::BindingData"
                 2 "node::v8::BindingData" (ex_Deserialize 2))
              ex_memory Hsize eq_refl eq_refl)
    as (Hresult & Hfields & Hqueue & _).
  split; [exact Hresult |]. split; [exact Hfields | exact Hqueue].
Defined.





Lemma C7_witness :
  let good := ex_host false 0 ex_blob true true in
  let bad := ex_host false 0 (mkStartupData (Some [0; 5]) 2) true true in
  (returned (SnapshotBuilder_Generate false 0 ex_CanBeRehashed true good ex_out)
   /\ ex_CanBeRehashed
        (blob (final (SnapshotBuilder_Generate false 0 ex_CanBeRehashed true
                        good ex_out))) = true)
  /\ (ex_CanBeRehashed (CreateBlob bad) = false
      /\ aborted (SnapshotBuilder_Generate false 0 ex_CanBeRehashed true bad ex_out)
      /\ aborted (SnapshotBuilder_Generate_string false ex_print 0
                    ex_CanBeRehashed true bad ex_out)).
Proof.
  split.
  - assert (Hret : returned (SnapshotBuilder_Generate false 0 ex_CanBeRehashed
                               true (ex_host false 0 ex_blob true true) ex_out))
      by (exists tt; reflexivity).
    split; [exact Hret |].
    exact (proj2 (proj1 (C7_blob_must_rehash false ex_print 0
                           ex_CanBeRehashed true
                           (ex_host false 0 ex_blob true true) ex_out) Hret)).
  - split; [reflexivity |].
    exact (proj2 (C7_blob_must_rehash false ex_print 0 ex_CanBeRehashed true
                    (ex_host false 0 (mkStartupData (Some [0; 5]) 2) true true)
                    ex_out) eq_refl).
Defined.

Lemma C8_witness :
  SnapshotData_readable ex_data
  /\ SnapshotData_readable ex_data_larger
  /\ blob_bytes ex_data = blob_bytes ex_data_larger
  /\ FormatBlob ex_print ex_data = FormatBlob ex_print ex_data_larger
  /\ Z.of_nat (List.length (blob_bytes ex_data)) = raw_size (blob ex_data).
Proof.
  assert (H1 : SnapshotData_readable ex_data)
    by (unfold SnapshotData_readable; cbn; lia).
  assert (H2 : SnapshotData_readable ex_data_larger)
    by (unfold SnapshotData_readable; cbn; lia).
  split; [exact H1 |]. split; [exact H2 |]. split; [reflexivity |].
  destruct (C8_FormatBlob_deterministic ex_print ex_data ex_data_larger H1 H2
              eq_refl eq_refl eq_refl eq_refl) as (Hsame & _ & Hsize & _).
  split; [exact Hsame | exact Hsize].
Defined.

(** C9 as the specification states it does not hold, for two reasons.  The
    slot of holder 8 points to an object whose kind is not registered: no
    InternalFieldInfo comes back, the call ends in UNREACHABLE().  The object
    of holder 9 serializes to a length of 2^31: the payload length that comes
    back is -2^31. *)
Lemma C9_counterexample :
  let run holder :=
    result (SerializeNodeContextInternalFields false ex_types 1 true holder 0
              ex_serialize_memory) in
  (internal_fields ex_serialize_memory (8%nat, 1) <> nullptr
   /\ run 8%nat = Fatal Unreachable)
  /\ (exists info,
        run 9%nat = Return (mkStartupData (Some info) (- 2 ^ 31))
        /\ InternalFieldInfo.length info = 2 ^ 31
        /\ - 2 ^ 31 <> InternalFieldInfo.length info).
Proof.
  cbv zeta. split.
  - split; [discriminate | reflexivity].
  - exists (InternalFieldInfo.mk 2 (2 ^ 31) []).
    split; [reflexivity |]. split; [reflexivity | discriminate].
Qed.

Lemma C9_witness :
  let o := SerializeNodeContextInternalFields false ex_types 1 true 10%nat 0
             ex_serialize_memory in
  let null := SerializeNodeContextInternalFields false ex_types 1 true 7%nat 0
                ex_serialize_memory in
  result o = Return (mkStartupData (Some (InternalFieldInfo.mk 1 16 [])) 16)
  /\ result null = Return empty_marker.
Proof.
  split.
  - destruct (C9_serialize_internal_field false ex_types 1 true 10%nat 0
                ex_serialize_memory) as (_ & _ & Hobject & _).
    refine (proj2 (Hobject (ex_binding_object 1 10%nat) _
                     (mkSerializableObjectType "fs_binding_data" "fs::BindingData"
                        1 "node::fs::BindingData" (ex_Deserialize 1))
                     eq_refl eq_refl eq_refl) _).
    cbn. lia.
  - destruct (C9_serialize_internal_field false ex_types 1 true 7%nat 0
                ex_serialize_memory) as (_ & Hnull & _).
    exact (proj2 Hnull eq_refl).
Defined.

Lemma C10_witness :
  let good := ex_host false 0 ex_blob true true in
  let bad := ex_host false 1 ex_blob true true in
  (returned (SnapshotBuilder_Generate false 0 ex_CanBeRehashed true good ex_out)
   /\ AddContext good = 0)
  /\ (AddContext bad <> 0
      /\ aborted (SnapshotBuilder_Generate false 0 ex_CanBeRehashed true bad ex_out)
      /\ aborted (SnapshotBuilder_Generate_string false ex_print 0
                    ex_CanBeRehashed true bad ex_out)).
Proof.
  split.
  - assert (Hret : returned (SnapshotBuilder_Generate false 0 ex_CanBeRehashed
                               true (ex_host false 0 ex_blob true true) ex_out))
      by (exists tt; reflexivity).
    split; [exact Hret |].
    exact (proj1 (C10_context_index_is_fixed false ex_print 0
                    ex_CanBeRehashed true
                    (ex_host false 0 ex_blob true true) ex_out) Hret).
  - assert (Hindex : AddContext (ex_host false 1 ex_blob true true) <> 0)
      by (cbn; lia).
    split; [exact Hindex |].
    exact (proj2 (C10_context_index_is_fixed false ex_print 0
                    ex_CanBeRehashed true
                    (ex_host false 1 ex_blob true true) ex_out) Hindex).
Defined.

(** ** The further properties at concrete inputs *)

Lemma X1_witness :
  0 <= 2 <= 2 ^ 64
  /\ WriteVector pretty [1; -2; 127] 2
     = Some (comma_separated pretty (take (Z.to_nat 2) [1; -2; 127]))
  /\ WriteVector pretty [1; -2; 127] 4 = None.
Proof.
  assert (H2 : 0 <= 2 <= 2 ^ 64) by lia.
  assert (H4 : 0 <= 4 <= 2 ^ 64) by lia.
  split; [exact H2 |]. split.
  - apply (X1_WriteVector_bounds pretty [1; -2; 127] 2 H2). cbn. lia.
  - apply (X1_WriteVector_bounds pretty [1; -2; 127] 4 H4). cbn. lia.
Defined.

Lemma X2_witness :
  WriteVector pretty [1; -2; 127] 3 = WriteVector pretty [1; -2; 127; 99] 3
  /\ take (Z.to_nat 3) [1; -2; 127] = take (Z.to_nat 3) [1; -2; 127; 99].
Proof.
  assert (H3 : 0 <= 3 <= 2 ^ 64) by lia.
  split; [reflexivity |].
  exact (X2_WriteVector_read_back [1; -2; 127] [1; -2; 127; 99] 3 3
           (comma_separated pretty [1; -2; 127]) H3 H3 eq_refl eq_refl).
Defined.

Lemma X4_witness :
  SnapshotData_readable ex_data
  /\ SnapshotData_readable ex_data_larger
  /\ FormatBlob ex_print ex_data = FormatBlob ex_print ex_data_larger
  /\ blob_bytes ex_data = blob_bytes ex_data_larger
  /\ isolate_data_indices ex_data = isolate_data_indices ex_data_larger.
Proof.
  assert (H1 : SnapshotData_readable ex_data)
    by (unfold SnapshotData_readable; cbn; lia).
  assert (H2 : SnapshotData_readable ex_data_larger)
    by (unfold SnapshotData_readable; cbn; lia).
  assert (Hsame : FormatBlob ex_print ex_data = FormatBlob ex_print ex_data_larger)
    by reflexivity.
  split; [exact H1 |]. split; [exact H2 |]. split; [exact Hsame |].
  destruct (X4_FormatBlob_injective ex_print ex_data ex_data_larger H1 H2 Hsame)
    as (Hbytes & _ & Hindices & _).
  split; [exact Hbytes | exact Hindices].
Defined.

Lemma X7_witness :
  build_snapshot (ex_host_main (Some 1)) = true
  /\ SpinEventLoop (ex_host_main (Some 1)) <> Some 0
  /\ result (SnapshotBuilder_Generate false 0 ex_CanBeRehashed true
               (ex_host_main (Some 1)) ex_out)
     = Fatal (CheckFailed "exit_code == 0").
Proof.
  assert (Hloop : SpinEventLoop (ex_host_main (Some 1)) <> Some 0)
    by (cbn; intros H; discriminate H).
  split; [reflexivity |]. split; [exact Hloop |].
  exact (proj2 (X7_Generate_exit_code false ex_print 0 ex_CanBeRehashed true
                  (ex_host_main (Some 1)) ex_out eq_refl Hloop)
           eq_refl eq_refl eq_refl).
Defined.

Lemma X9_witness :
  let host := ex_host false 0 ex_blob true true in
  build_snapshot host = false
  /\ SnapshotBuilder_Generate false 0 ex_CanBeRehashed true
       (with_entry_point host true true (Some 7) true) ex_out
     = SnapshotBuilder_Generate false 0 ex_CanBeRehashed true host ex_out.
Proof.
  split; [reflexivity |].
  exact (proj1 (X9_no_entry_point false ex_print 0 ex_CanBeRehashed true
                  (ex_host false 0 ex_blob true true) ex_out
                  true true (Some 7) true eq_refl)).
Defined.

Lemma X10_witness :
  let host := ex_host false 0 ex_blob true true in
  build_passes 0 ex_CanBeRehashed host
  /\ SnapshotData_readable (built host)
  /\ result (SnapshotBuilder_Generate_string false ex_print 0 ex_CanBeRehashed
               true host ex_out)
     = Return (artifact ex_print (built host)).
Proof.
  assert (Hpass : build_passes 0 ex_CanBeRehashed (ex_host false 0 ex_blob true true)).
  { unfold build_passes. cbn.
    split; [reflexivity |]. split; [reflexivity |].
    split; [intros H; discriminate H |].
    split; [reflexivity |]. split; [reflexivity |]. split; reflexivity. }
  assert (Hread : SnapshotData_readable (built (ex_host false 0 ex_blob true true)))
    by (unfold SnapshotData_readable; cbn; lia).
  split; [exact Hpass |]. split; [exact Hread |].
  exact (proj1 (X10_Generate_string_artifact false ex_print 0 ex_CanBeRehashed true
                  (ex_host false 0 ex_blob true true) ex_out Hpass) Hread).
Defined.

Lemma X12_witness :
  let payload := mkStartupData (Some (InternalFieldInfo.mk 2 16 [])) 16 in
  let short := mkStartupData (Some (InternalFieldInfo.mk 2 16 [])) 1 in
  in_bounds 16 payload
  /\ ~ in_bounds 16 short
  /\ returned (DeserializeNodeInternalFields false ex_types 7%nat 0 payload ex_memory).
Proof.
  cbv zeta.
  assert (Hin : in_bounds 16 (mkStartupData (Some (InternalFieldInfo.mk 2 16 [])) 16))
    by (right; cbn; lia).
  split; [exact Hin |]. split; [intros [H | H]; cbn in H; lia |].
  apply (X12_Deserialize_outcomes false ex_types 16 7%nat 0
           (mkStartupData (Some (InternalFieldInfo.mk 2 16 [])) 16) ex_memory Hin).
  right. eexists. eexists. split; reflexivity.
Defined.

Lemma X13_witness :
  let obj := mkSnapshotableObject 1
               (fun _ => InternalFieldInfo.mk 1 16 []) (fun _ (creator : nat) => creator) in
  let ty := mkSerializableObjectType "fs_binding_data" "fs::BindingData" 1
              "node::fs::BindingData" (ex_Deserialize 1) in
  internal_fields ex_serialize_memory (10%nat, 1) = pointer (ex_binding_object 1 10%nat)
  /\ switch_type ex_types (type_ obj) = Some ty
  /\ InternalFieldInfo.type (Serialize obj 0) = type_ obj
  /\ InternalFieldInfo.length (Serialize obj 0) mod 2 ^ 32 <> 0
  /\ exists payload,
       result (SerializeNodeContextInternalFields false ex_types 1 true 10%nat 0
                 ex_serialize_memory) = Return payload
       /\ deserialize_requests
            (environment
               (final (DeserializeNodeInternalFields false ex_types 7%nat 3 payload
                         ex_memory)))
          = [mkDeserializeRequest (ex_Deserialize 1) 7%nat 3 (Serialize obj 0)].
Proof.
  cbv zeta.
  assert (Hlen : InternalFieldInfo.length
                   (Serialize (mkSnapshotableObject 1
                                 (fun _ => InternalFieldInfo.mk 1 16 [])
                                 (fun _ (creator : nat) => creator)) 0) mod 2 ^ 32 <> 0)
    by (vm_compute; intros H; discriminate H).
  split; [reflexivity |]. split; [reflexivity |]. split; [reflexivity |].
  split; [exact Hlen |].
  destruct (X13_serialize_then_deserialize false ex_types 1 true 10%nat 0
              ex_serialize_memory (ex_binding_object 1 10%nat)
              (mkSnapshotableObject 1
                 (fun _ => InternalFieldInfo.mk 1 16 [])
                 (fun _ (creator : nat) => creator))
              (mkSerializableObjectType "fs_binding_data" "fs::BindingData" 1
                 "node::fs::BindingData" (ex_Deserialize 1))
              7%nat 3 ex_memory eq_refl eq_refl eq_refl eq_refl)
    as (payload & Hser & _ & Hqueued & _).
  exists payload. split; [exact Hser |].
  exact (proj2 (Hqueued Hlen)).
Defined.

Lemma X15_witness :
  let good := [("node::BlobBindingData", ex_binding_object 3 30%nat)] in
  let key := "node::os::BindingData" in
  let binding := ex_binding_object 4 40%nat in
  let env' := mkEnvironment 5%nat [] (good ++ [(key, binding)]) in
  Forall (serializable_binding ex_types) good
  /\ ~ serializable_binding ex_types (key, binding)
  /\ result (SerializeBindingData ex_AddData false ex_types ex_env_unregistered
               15%nat ex_info) = Fatal Unreachable
  /\ SerializeBindingData ex_AddData false ex_types env' 15%nat ex_info
     = SerializeBindingData ex_AddData false ex_types ex_env_unregistered
         15%nat ex_info.
Proof.
  cbv zeta.
  assert (Hgood : Forall (serializable_binding ex_types)
                    [("node::BlobBindingData", ex_binding_object 3 30%nat)])
    by (repeat constructor; cbn; eexists; reflexivity).
  assert (Hbad : ~ serializable_binding ex_types
                     ("node::os::BindingData", ex_binding_object 4 40%nat))
    by (intros [H _]; vm_compute in H; discriminate H).
  split; [exact Hgood |]. split; [exact Hbad |].
  destruct (X15_SerializeBindingData_first_failure false ex_types ex_AddData
              ex_env_unregistered
              (mkEnvironment 5%nat []
                 ([("node::BlobBindingData", ex_binding_object 3 30%nat)]
                  ++ [("node::os::BindingData", ex_binding_object 4 40%nat)]))
              15%nat ex_info
              [("node::BlobBindingData", ex_binding_object 3 30%nat)]
              "node::os::BindingData" (ex_binding_object 4 40%nat)
              [("node::fs::BindingData", ex_binding_object 1 10%nat)] []
              eq_refl Hgood Hbad eq_refl eq_refl)
    as (Hres & _ & Hsame).
  split; [exact Hres | exact Hsame].
Defined.
